(** * ProspectInsightAI: the completion and search core of [app.py]

    A shallow embedding of the three functions of [app.py] that talk to the
    outside world,

    - [generate_content_with_retry_rest] (the Gemini request, wrapped by
      tenacity's [@retry]),
    - [buscar_links_google] (the SerpApi request), and
    - [resumir_com_gemini] (prompt assembly and the mapping of failures to
      messages),

    together with the parts of Python, [requests] and [tenacity] they run on:
    the values [json] produces, the subscript, membership and truth tests on
    them, [Response.raise_for_status], and the loop of [Retrying.__call__].

    Effects are explicit.  A computation is a function from the state of the
    world (requests issued, waits slept, Streamlit notifications shown) to an
    outcome, a returned value or a raised exception, and the new state.  The
    network is an oracle that answers the n-th request. *)

From Stdlib Require Import ZArith List String Ascii Bool Lia PrimFloat.
From Stdlib Require Import Numbers.DecimalString.
Import ListNotations.

Local Open Scope string_scope.
Local Open Scope list_scope.

#[local] Set Warnings "-register-all".

(** ** Python values

    What [Response.json()] hands back: [None], [bool], [int], [float], [str],
    [list] and [dict] with [str] keys.  A [str] is kept as its UTF-8 bytes; a
    [dict] as its items in insertion order.  The keys of a [dict] are pairwise
    distinct, and every operation below reads the first item of a key only. *)

Inductive pyval : Type :=
| PyNone
| PyBool (b : bool)
| PyInt (z : Z)
| PyFloat (f : float)
| PyStr (s : string)
| PyList (xs : list pyval)
| PyDict (items : list (string * pyval)).

(** [type(v).__name__] *)
Definition type_name (v : pyval) : string :=
  match v with
  | PyNone => "NoneType"
  | PyBool _ => "bool"
  | PyInt _ => "int"
  | PyFloat _ => "float"
  | PyStr _ => "str"
  | PyList _ => "list"
  | PyDict _ => "dict"
  end.

(** [bool(v)] *)
Definition py_truthy (v : pyval) : bool :=
  match v with
  | PyNone => false
  | PyBool b => b
  | PyInt z => negb (z =? 0)%Z
  | PyFloat f => negb (PrimFloat.eqb f 0%float)
  | PyStr s => negb (s =? "")
  | PyList xs => match xs with [] => false | _ :: _ => true end
  | PyDict items => match items with [] => false | _ :: _ => true end
  end.

(** [str(n)] for an [int] *)
Definition str_of_int (n : Z) : string := NilZero.string_of_int (Z.to_int n).

(** *** Strings *)

Definition newline : string := String (ascii_of_nat 10) EmptyString.

(** [needle in hay] on two [str] *)
Fixpoint str_contains (needle hay : string) : bool :=
  if prefix needle hay then true
  else match hay with
       | EmptyString => false
       | String _ rest => str_contains needle rest
       end.

(** [sep.join(parts)] *)
Fixpoint str_join (sep : string) (parts : list string) : string :=
  match parts with
  | [] => ""
  | [p] => p
  | p :: rest => p ++ sep ++ str_join sep rest
  end.

(** A byte [10xxxxxx] continues the code point begun before it. *)
Definition is_continuation (c : ascii) : bool :=
  let n := nat_of_ascii c in ((128 <=? n) && (n <? 192))%nat.

(** The characters of a [str], each as a [str] of length one. *)
Fixpoint code_points (s : string) : list string :=
  match s with
  | EmptyString => []
  | String c rest =>
      let tail := code_points rest in
      match rest, tail with
      | String d _, p :: ps =>
          if is_continuation d then String c p :: ps
          else String c EmptyString :: tail
      | _, _ => String c EmptyString :: tail
      end
  end.

(** *** Dictionaries *)

Fixpoint dict_get (key : string) (items : list (string * pyval)) : option pyval :=
  match items with
  | [] => None
  | (k, v) :: rest => if k =? key then Some v else dict_get key rest
  end.

Definition dict_has (key : string) (items : list (string * pyval)) : bool :=
  match dict_get key items with Some _ => true | None => false end.

Fixpoint dict_keys (items : list (string * pyval)) : list string :=
  match items with
  | [] => []
  | (k, _) :: rest => k :: filter (fun k' => negb (k' =? k)) (dict_keys rest)
  end.

(** ** HTTP messages *)

Inductive http_method : Type := GET | POST.

Record http_request : Type := mk_request {
  req_method : http_method;
  req_url : string;
  req_headers : list (string * string);
  req_params : list (string * pyval);   (* [params=] of [requests.get] *)
  req_json : option pyval               (* [json=] of [requests.post] *)
}.

(** What [Response.json()] does on a response: the parsed body, or
    [requests.exceptions.JSONDecodeError] with its message. *)
Inductive json_result : Type :=
| JsonValue (v : pyval)
| JsonInvalid (msg : string).

Record response : Type := mk_response {
  status_code : Z;
  reason : string;
  url : string;
  body : json_result
}.

(** ** Exceptions

    The [Exception] subclasses this code meets.  [OtherError] stands for what
    the transport raises ([ConnectionError], [Timeout], ...), by class name and
    message.  [RetryError] is tenacity's: it holds the [Future] of the last
    attempt, here its outcome and the address [Future.__repr__] prints. *)

Inductive dict_key : Type := KStr (s : string) | KInt (n : Z).

Inductive exn : Type :=
| HTTPError (msg : string) (resp : response)
| JSONDecodeError (msg : string)
| KeyError (key : dict_key)
| IndexError (msg : string)
| TypeError (msg : string)
| OtherError (class_name : string) (msg : string)
| RetryError (last_attempt : exn + pyval) (future_at : string).

(** [isinstance(e, requests.exceptions.HTTPError)] *)
Definition is_HTTPError (e : exn) : bool :=
  match e with HTTPError _ _ => true | _ => false end.

(** [isinstance(e, LookupError)]: [KeyError] and [IndexError] are its only
    subclasses among the above. *)
Definition is_LookupError (e : exn) : bool :=
  match e with KeyError _ | IndexError _ => true | _ => false end.

(** [type(e).__name__] *)
Definition exn_name (e : exn) : string :=
  match e with
  | HTTPError _ _ => "HTTPError"
  | JSONDecodeError _ => "JSONDecodeError"
  | KeyError _ => "KeyError"
  | IndexError _ => "IndexError"
  | TypeError _ => "TypeError"
  | OtherError c _ => c
  | RetryError _ _ => "RetryError"
  end.

(** [repr] of a key, as [KeyError.__str__] prints it.  The [str] keys this
    program subscripts with hold no quote and no backslash. *)
Definition key_repr (k : dict_key) : string :=
  match k with
  | KStr s => "'" ++ s ++ "'"
  | KInt n => str_of_int n
  end.

(** [str(e)] *)
Definition exn_str (e : exn) : string :=
  match e with
  | HTTPError msg _ => msg
  | JSONDecodeError msg => msg
  | KeyError k => key_repr k
  | IndexError msg => msg
  | TypeError msg => msg
  | OtherError _ msg => msg
  | RetryError last at_ =>
      "RetryError[<Future at " ++ at_ ++ " state=finished " ++
      match last with
      | inl e' => "raised " ++ exn_name e'
      | inr v => "returned " ++ type_name v
      end ++ ">]"
  end.

(** ** Subscripts, membership and iteration (messages as CPython 3.12 words them) *)

Definition not_subscriptable (v : pyval) : exn :=
  TypeError ("'" ++ type_name v ++ "' object is not subscriptable").

(** [key in v] for a [str] key *)
Definition py_contains (key : string) (v : pyval) : exn + bool :=
  match v with
  | PyDict items => inr (dict_has key items)
  | PyList xs =>
      inr (existsb (fun x => match x with PyStr s => s =? key | _ => false end) xs)
  | PyStr s => inr (str_contains key s)
  | _ => inl (TypeError ("argument of type '" ++ type_name v ++ "' is not iterable"))
  end.

(** [v[key]] for a [str] key *)
Definition py_getitem (v : pyval) (key : string) : exn + pyval :=
  match v with
  | PyDict items =>
      match dict_get key items with
      | Some x => inr x
      | None => inl (KeyError (KStr key))
      end
  | PyList _ => inl (TypeError "list indices must be integers or slices, not str")
  | PyStr _ => inl (TypeError "string indices must be integers, not 'str'")
  | _ => inl (not_subscriptable v)
  end.

(** [v[0]]; a [dict] parsed from JSON has no key [0] *)
Definition py_getitem0 (v : pyval) : exn + pyval :=
  match v with
  | PyList (x :: _) => inr x
  | PyList [] => inl (IndexError "list index out of range")
  | PyStr s =>
      match code_points s with
      | c :: _ => inr (PyStr c)
      | [] => inl (IndexError "string index out of range")
      end
  | PyDict _ => inl (KeyError (KInt 0))
  | _ => inl (not_subscriptable v)
  end.

(** The items [for item in v] runs over *)
Definition py_iter (v : pyval) : exn + list pyval :=
  match v with
  | PyList xs => inr xs
  | PyDict items => inr (map PyStr (dict_keys items))
  | PyStr s => inr (map PyStr (code_points s))
  | _ => inl (TypeError ("'" ++ type_name v ++ "' object is not iterable"))
  end.

(** ** The state of the world and computations over it *)

Inductive level : Type := Info | Success | Warning | Error.

(** An f-string before rendering: its literal parts and formatted values. *)
Inductive fragment : Type := Lit (s : string) | Fmt (v : pyval).

(** A call of [st.info], [st.success], [st.warning] or [st.error]. *)
Record notice : Type := mk_notice {
  notice_level : level;
  notice_text : list fragment
}.

(** Everything logged oldest first. *)
Record world : Type := mk_world {
  sent : list http_request;    (* requests put on the wire *)
  slept : list Z;              (* waits of the retry loop, in seconds *)
  shown : list notice          (* Streamlit notifications *)
}.

Definition fresh : world := mk_world [] [] [].

(** The answer of the network to a request: a response of any status, or an
    exception out of [requests.get] / [requests.post]. *)
Inductive reply : Type :=
| Replied (r : response)
| Refused (e : exn).

(** A computation over a state [S]: it returns or raises, and the state it
    leaves is kept in both cases. *)
Definition M (S A : Type) : Type := S -> (exn + A) * S.

Definition ret {S A : Type} (a : A) : M S A := fun s => (inr a, s).

Definition raise {S A : Type} (e : exn) : M S A := fun s => (inl e, s).

Definition lift {S A : Type} (r : exn + A) : M S A := fun s => (r, s).

Definition bind {S A B : Type} (m : M S A) (k : A -> M S B) : M S B :=
  fun s =>
    match m s with
    | (inr a, s') => k a s'
    | (inl e, s') => (inl e, s')
    end.

(** [try: body  except Exception as e: handler] *)
Definition try_except {S A : Type} (body : M S A) (handler : exn -> M S A) : M S A :=
  fun s =>
    match body s with
    | (inl e, s') => handler e s'
    | done => done
    end.

Declare Scope py_scope.
Delimit Scope py_scope with py.
Notation "x <- m ;; k" := (bind m (fun x => k))
  (at level 61, m at next level, right associativity) : py_scope.
Notation "m ;; k" := (bind m (fun _ => k))
  (at level 61, right associativity) : py_scope.
Local Open Scope py_scope.

(** A world computation run beside the local variables [L] of a function. *)
Definition on_world {L A : Type} (m : M world A) : M (world * L) A :=
  fun s => let (r, w') := m (fst s) in (r, (w', snd s)).

Definition st (lv : level) (text : list fragment) : M world unit :=
  fun w => (inr tt, mk_world (sent w) (slept w) (shown w ++ [mk_notice lv text])).

Definition time_sleep (seconds : Z) : M world unit :=
  fun w => (inr tt, mk_world (sent w) (slept w ++ [seconds]) (shown w)).

(** [Response.raise_for_status] of [requests] *)
Definition raise_for_status {S : Type} (r : response) : M S unit :=
  let code := status_code r in
  let http_error_msg :=
    if ((400 <=? code) && (code <? 500))%Z then
      (str_of_int code ++ " Client Error: " ++ reason r ++ " for url: " ++ url r)%string
    else if ((500 <=? code) && (code <? 600))%Z then
      (str_of_int code ++ " Server Error: " ++ reason r ++ " for url: " ++ url r)%string
    else "" in
  if http_error_msg =? "" then ret tt else raise (HTTPError http_error_msg r).

(** [Response.json] *)
Definition json {S : Type} (r : response) : M S pyval :=
  match body r with
  | JsonValue v => ret v
  | JsonInvalid msg => raise (JSONDecodeError msg)
  end.

(** ** tenacity

    [Retrying.__call__] with the strategies [app.py] passes to [@retry], and
    [reraise], which it leaves at its default. *)

Record retrying : Type := mk_retrying {
  wait : Z -> Z;                      (* attempt number to seconds *)
  stop : Z -> bool;                   (* on the attempt number *)
  retry : exn + pyval -> bool;        (* on the outcome of the attempt *)
  reraise : bool
}.

(** [wait_exponential(multiplier, min, max)], [exp_base] at its default 2 *)
Definition wait_exponential (multiplier min max : Z) (attempt_number : Z) : Z :=
  let exp := (2 ^ (attempt_number - 1))%Z in
  let result := (multiplier * exp)%Z in
  Z.max (Z.max 0 min) (Z.min result max).

(** [stop_after_attempt(max_attempt_number)] *)
Definition stop_after_attempt (max_attempt_number : Z) (attempt_number : Z) : bool :=
  (max_attempt_number <=? attempt_number)%Z.

(** [retry_if_exception_type(cls)] *)
Definition retry_if_exception_type (isinstance_cls : exn -> bool)
    (outcome : exn + pyval) : bool :=
  match outcome with
  | inl e => isinstance_cls e
  | inr _ => false
  end.

Section Retrying.

Variable future_at : Z -> string.   (* where the Future of an attempt lives *)
Variable r : retrying.
Variable fn : M world pyval.

(** The [while True] of [Retrying.__call__], one turn per attempt: run [fn];
    if the outcome asks for no retry hand it over as it is; else stop with
    [RetryError] (or, under [reraise], the exception of the last attempt), or
    sleep and go round again.  [None]: the turns allowed ran out. *)
Fixpoint call (fuel : nat) (attempt_number : Z) (w : world)
    : option ((exn + pyval) * world) :=
  match fuel with
  | O => None
  | S fuel' =>
      let (outcome, w1) := fn w in
      if negb (retry r outcome) then Some (outcome, w1)
      else if stop r attempt_number then
        let retry_exc := RetryError outcome (future_at attempt_number) in
        match reraise r, outcome with
        | true, inl e => Some (inl e, w1)
        | _, _ => Some (inl retry_exc, w1)
        end
      else
        let (_, w2) := time_sleep (wait r attempt_number) w1 in
        call fuel' (attempt_number + 1)%Z w2
  end.

End Retrying.

(** ** [app.py] *)

Definition GEMINI_API_ENDPOINT : string :=
  "https://generativelanguage.googleapis.com/v1beta/models/gemini-2.0-flash:generateContent".

(** The text returned for a response without candidates. *)
Definition no_content_message : string :=
  "Não foi possível extrair o conteúdo gerado pelo Gemini.".

Definition no_links_message : string :=
  "Não foi possível gerar um resumo, pois nenhum link relevante foi fornecido ou encontrado.".

Definition quota_message : string :=
  "Não foi possível gerar o resumo devido ao limite de requisições da API. Tente novamente mais tarde ou verifique sua cota.".

Definition http_error_message (e_str : string) (status : Z) : string :=
  "Ocorreu um erro HTTP ao gerar o resumo: " ++ e_str ++ ". Status: " ++ str_of_int status.

Definition unknown_error_message (e_name e_str : string) : string :=
  "Ocorreu um erro desconhecido durante a geração do resumo: " ++ e_name ++ ": " ++ e_str.

(** Every line followed by a line break. *)
Fixpoint unlines (ls : list string) : string :=
  match ls with
  | [] => ""
  | l :: rest => l ++ newline ++ unlines rest
  end.

(** The f-string of [resumir_com_gemini] up to [{links_formatados}] ... *)
Definition prompt_before_links : string :=
  newline ++ unlines [
    "Como um analista de negócios e inteligência de mercado sênior, analise o conteúdo dos links fornecidos.";
    "Seu resumo deve ser conciso, acionável e focar em insights estratégicos sobre a empresa ou tópico central para prospecção comercial.";
    "";
    "Pontos-chave a serem abordados no resumo:";
    "-   Desafios Atuais: Obstáculos, problemas de mercado ou dores que a empresa enfrenta.";
    "-   Oportunidades de Mercado: Onde a empresa pode crescer ou inovar?";
    "-   Iniciativas Estratégicas: Projetos, parcerias, aquisições ou lançamentos recentes.";
    "-   Pontos de Dor Relevantes: Problemas específicos que nossos produtos/serviços podem resolver.";
    "-   Proposições de Valor: Como nossos produtos/serviços se alinham aos objetivos da empresa e que ganhos oferecemos.";
    "";
    "Diretrizes:";
    "-   Priorize as informações mais recentes e as mais impactantes para vendas.";
    "-   Mencione explicitamente se houver informações conflitantes ou falta de dados.";
    "-   Apresente o resumo de forma estruturada, usando títulos e marcadores.";
    "-   Mantenha um tom profissional e analítico.";
    "";
    "---";
    "Links para análise (priorize a leitura e compreensão do conteúdo):"
  ].

(** ... and after it. *)
Definition prompt_after_links : string :=
  newline ++ unlines [
    "";
    "---";
    "Resumo Analítico para Prospecção:"
  ].

Definition build_prompt (links_formatados : string) : string :=
  prompt_before_links ++ links_formatados ++ prompt_after_links.



Section App.

(** The two secrets read at start-up, the network, and the addresses of the
    Futures tenacity allocates. *)
Variable google_api_key : string.
Variable serpapi_api_key : string.
Variable net : nat -> http_request -> reply.
Variable future_at : Z -> string.

(** Put a request on the wire; the network answers the n-th one. *)
Definition send (req : http_request) : M world response :=
  fun w =>
    let w' := mk_world (sent w ++ [req])%list (slept w) (shown w) in
    match net (List.length (sent w)) req with
    | Replied resp => (inr resp, w')
    | Refused e => (inl e, w')
    end.

Definition requests_post (url : string) (headers : list (string * string))
    (payload : pyval) : M world response :=
  send (mk_request POST url headers [] (Some payload)).

Definition requests_get (url : string) (params : list (string * pyval))
    : M world response :=
  send (mk_request GET url [] params None).

(** *** [generate_content_with_retry_rest] *)

(** [response_json["candidates"][0]["content"]["parts"][0]["text"]] *)
Definition first_candidate_text (response_json : pyval) : exn + pyval :=
  match py_getitem response_json "candidates" with
  | inl e => inl e
  | inr candidates =>
  match py_getitem0 candidates with
  | inl e => inl e
  | inr candidate =>
  match py_getitem candidate "content" with
  | inl e => inl e
  | inr content =>
  match py_getitem content "parts" with
  | inl e => inl e
  | inr parts =>
  match py_getitem0 parts with
  | inl e => inl e
  | inr part => py_getitem part "text"
  end end end end end.

(** ["candidates" in response_json and response_json["candidates"]], as the
    [if] reads it *)
Definition has_candidates (response_json : pyval) : exn + bool :=
  match py_contains "candidates" response_json with
  | inl e => inl e
  | inr false => inr false
  | inr true =>
      match py_getitem response_json "candidates" with
      | inl e => inl e
      | inr candidates => inr (py_truthy candidates)
      end
  end.

(** What follows [response.raise_for_status()] in the function. *)
Definition after_status_check (response : response) : M world pyval :=
  if (status_code response =? 429)%Z then
    raise (HTTPError "Too Many Requests (429) received." response)
  else
    response_json <- json response ;;
    some <- lift (has_candidates response_json) ;;
    if (some : bool) then lift (first_candidate_text response_json)
    else
      st Warning [Lit "AVISO: Resposta Gemini sem candidatos. Detalhes: ";
                  Fmt response_json] ;;
      ret (PyStr no_content_message).

(** The function under the decorator: one attempt. *)
Definition generate_content_attempt (prompt_text : string) : M world pyval :=
  let headers := [("Content-Type", "application/json")] in
  let payload :=
    PyDict [("contents",
             PyList [PyDict [("parts", PyList [PyDict [("text", PyStr prompt_text)]])]])] in
  response <- requests_post (GEMINI_API_ENDPOINT ++ "?key=" ++ google_api_key)
                            headers payload ;;
  raise_for_status response ;;
  after_status_check response.

(** The arguments of [@retry]. *)
Definition gemini_retrying : retrying := {|
  wait := wait_exponential 1 4 10;
  stop := stop_after_attempt 5;
  retry := retry_if_exception_type is_HTTPError;
  reraise := false
|}.

Definition generate_content_with_retry_rest (fuel : nat) (prompt_text : string)
    : world -> option ((exn + pyval) * world) :=
  call future_at gemini_retrying (generate_content_attempt prompt_text) fuel 1%Z.

(** *** [buscar_links_google]

    Lines 65 to 81 of [app.py] stand at the left margin behind runs of
    hyphens that mark their depth; they are read at the depth they mark,
    inside the [try] of the function. *)

(** [resultados.append(v)] on the local list *)
Definition resultados_append (v : pyval) : M (world * list pyval) unit :=
  fun s => (inr tt, (fst s, (snd s ++ [v])%list)).

(** [len(resultados)] *)
Definition resultados_len : M (world * list pyval) Z :=
  fun s => (inr (Z.of_nat (List.length (snd s))), s).

(** The body of [for item in res["organic_results"]] over the items left *)
Fixpoint append_links (items : list pyval) : M (world * list pyval) unit :=
  match items with
  | [] => ret tt
  | item :: rest =>
      has_link <- lift (py_contains "link" item) ;;
      (if (has_link : bool) then
         link <- lift (py_getitem item "link") ;;
         resultados_append link
       else ret tt) ;;
      append_links rest
  end.

Definition buscar_try (query : string) (num_resultados : Z)
    : M (world * list pyval) unit :=
  let params := [("api_key", PyStr serpapi_api_key);
                 ("q", PyStr query);
                 ("num", PyInt num_resultados);
                 ("hl", PyStr "lang");
                 ("gl", PyStr "br")] in
  let url := "https://serpapi.com/search" in
  response <- on_world (requests_get url params) ;;
  raise_for_status response ;;
  res <- json response ;;
  has_results <- lift (py_contains "organic_results" res) ;;
  (if (has_results : bool) then
     organic_results <- lift (py_getitem res "organic_results") ;;
     items <- lift (py_iter organic_results) ;;
     append_links items
   else ret tt) ;;
  n <- resultados_len ;;
  on_world (st Success [Lit "Links encontrados: "; Fmt (PyInt n)]).

Definition buscar_except (query : string) (e : exn) : M (world * list pyval) unit :=
  on_world (st Error [Lit "ERRO ao buscar links no Google via SerpApi para '";
                      Fmt (PyStr query); Lit "': "; Fmt (PyStr (exn_str e))]) ;;
  on_world (st Warning
    [Lit "Verifique se a sua API Key da SerpApi está correta e se você tem créditos."]).

Definition buscar_links_google (query : string) (num_resultados : Z) (lang : string)
    : M world (list pyval) :=
  fun w =>
    let run : M (world * list pyval) unit :=
      on_world (st Info [Lit "Buscando "; Fmt (PyInt num_resultados);
                         Lit " links no Google para: '"; Fmt (PyStr query);
                         Lit "' (via SerpApi)..."]) ;;
      try_except (buscar_try query num_resultados) (buscar_except query) in
    let (outcome, s) := run (w, []) in
    match outcome with
    | inr _ => (inr (snd s), fst s)        (* [return resultados] *)
    | inl e => (inl e, fst s)
    end.

(** *** [resumir_com_gemini] *)

(** The two [except] clauses: [HTTPError] first, then [Exception]. *)
Definition resumir_except (e : exn) : M world pyval :=
  match e with
  | HTTPError _ resp =>
      if (status_code resp =? 429)%Z then
        st Error [Lit "ERRO DE COTA: Você excedeu seu limite de requisições ao Gemini. Tente novamente mais tarde ou verifique sua cota da API."] ;;
        ret (PyStr quota_message)
      else
        st Error [Lit "ERRO HTTP inesperado ao gerar o resumo: "; Fmt (PyStr (exn_str e));
                  Lit ". Status: "; Fmt (PyInt (status_code resp))] ;;
        ret (PyStr (http_error_message (exn_str e) (status_code resp)))
  | _ =>
      st Error [Lit "ERRO INESPERADO ao gerar o resumo: "; Fmt (PyStr (exn_str e))] ;;
      ret (PyStr (unknown_error_message (exn_name e) (exn_str e)))
  end.

Definition resumir_com_gemini (fuel : nat) (links : list string)
    : world -> option ((exn + pyval) * world) :=
  fun w =>
    match links with
    | [] =>
        Some ((st Warning [Lit "AVISO: Nenhum link válido fornecido para resumo."] ;;
               ret (PyStr no_links_message)) w)
    | _ :: _ =>
        let links_formatados := str_join (newline ++ "- ") links in
        let prompt := build_prompt links_formatados in
        let (_, w1) :=
          st Info [Lit "Iniciando a geração do resumo detalhado com o Gemini..."] w in
        match generate_content_with_retry_rest fuel prompt w1 with
        | None => None
        | Some (inr resumo_final, w2) => Some (inr resumo_final, w2)
        | Some (inl e, w2) => Some (resumir_except e w2)
        end
    end.

End App.

(** ** Vocabulary of the statements *)

(** The world once [req] has gone out, and once the loop has slept. *)
Definition posted (req : http_request) (w : world) : world :=
  mk_world (sent w ++ [req])%list (slept w) (shown w).

Definition rested (seconds : Z) (w : world) : world :=
  mk_world (sent w) (slept w ++ [seconds])%list (shown w).

Definition notified (n : notice) (w : world) : world :=
  mk_world (sent w) (slept w) (shown w ++ [n])%list.

(** The request [generate_content_attempt] posts. *)
Definition gemini_request (google_api_key prompt_text : string) : http_request :=
  mk_request POST (GEMINI_API_ENDPOINT ++ "?key=" ++ google_api_key)
    [("Content-Type", "application/json")] []
    (Some (PyDict [("contents",
       PyList [PyDict [("parts", PyList [PyDict [("text", PyStr prompt_text)]])]])])).

(** The request [buscar_links_google] gets. *)
Definition serpapi_request (serpapi_api_key query : string) (num_resultados : Z)
    : http_request :=
  mk_request GET "https://serpapi.com/search" []
    [("api_key", PyStr serpapi_api_key); ("q", PyStr query);
     ("num", PyInt num_resultados); ("hl", PyStr "lang"); ("gl", PyStr "br")] None.

(** The [HTTPError] that [raise_for_status] raises on a response, if any. *)
Definition status_error (r : response) : option exn :=
  let code := status_code r in
  if ((400 <=? code) && (code <? 500))%Z then
    Some (HTTPError
      (str_of_int code ++ " Client Error: " ++ reason r ++ " for url: " ++ url r) r)
  else if ((500 <=? code) && (code <? 600))%Z then
    Some (HTTPError
      (str_of_int code ++ " Server Error: " ++ reason r ++ " for url: " ++ url r) r)
  else None.

(** The HTTP-level error an attempt ends in on a reply, if it does. *)
Definition http_failure (t : reply) : option exn :=
  match t with
  | Replied r => status_error r
  | Refused e => if is_HTTPError e then Some e else None
  end.

(** The waits before attempts [n+1], ..., [n+k] under [wait_exponential(1, 4, 10)]. *)
Fixpoint backoff (n : Z) (k : nat) : list Z :=
  match k with
  | O => []
  | S k' => wait_exponential 1 4 10 n :: backoff (n + 1) k'
  end.

(** An outcome that is a raised [HTTPError]. *)
Definition raised_HTTPError {A : Type} (o : exn + A) : Prop :=
  exists msg resp, o = inl (HTTPError msg resp).

(** A status [raise_for_status] lets through. *)
Definition status_passes (r : response) : Prop :=
  (status_code r < 400 \/ 600 <= status_code r)%Z.

(** The [link] of every entry that has one, in order. *)
Fixpoint links_of (entries : list (list (string * pyval))) : list pyval :=
  match entries with
  | [] => []
  | entry :: rest =>
      match dict_get "link" entry with
      | Some link => link :: links_of rest
      | None => links_of rest
      end
  end.

(** What one turn of the loop of [buscar_links_google] does with an item:
    raise, skip it, or append its link. *)
Definition item_link (item : pyval) : exn + option pyval :=
  match py_contains "link" item with
  | inl e => inl e
  | inr false => inr None
  | inr true =>
      match py_getitem item "link" with
      | inl e => inl e
      | inr link => inr (Some link)
      end
  end.

(** The links appended while running over [items], and the exception that
    ended the run, if one did. *)
Fixpoint collected (items : list pyval) : list pyval * option exn :=
  match items with
  | [] => ([], None)
  | item :: rest =>
      match item_link item with
      | inl e => ([], Some e)
      | inr None => collected rest
      | inr (Some link) => (link :: fst (collected rest), snd (collected rest))
      end
  end.

(** The run of the [try] block on the reply of the network: the links it
    has appended when it ends, and the exception it ends with, if any. *)
Definition try_outcome (t : reply) : list pyval * option exn :=
  match t with
  | Refused e => ([], Some e)
  | Replied r =>
      match status_error r with
      | Some e => ([], Some e)
      | None =>
          match body r with
          | JsonInvalid msg => ([], Some (JSONDecodeError msg))
          | JsonValue res =>
              match py_contains "organic_results" res with
              | inl e => ([], Some e)
              | inr false => ([], None)
              | inr true =>
                  match py_getitem res "organic_results" with
                  | inl e => ([], Some e)
                  | inr organic_results =>
                      match py_iter organic_results with
                      | inl e => ([], Some e)
                      | inr items => collected items
                      end
                  end
              end
          end
      end
  end.

(** The notifications of [buscar_links_google]. *)
Definition buscar_info (query : string) (num_resultados : Z) : notice :=
  mk_notice Info [Lit "Buscando "; Fmt (PyInt num_resultados);
                  Lit " links no Google para: '"; Fmt (PyStr query);
                  Lit "' (via SerpApi)..."].

Definition buscar_success (found : nat) : notice :=
  mk_notice Success [Lit "Links encontrados: "; Fmt (PyInt (Z.of_nat found))].

Definition buscar_error (query : string) (e : exn) : notice :=
  mk_notice Error [Lit "ERRO ao buscar links no Google via SerpApi para '";
                   Fmt (PyStr query); Lit "': "; Fmt (PyStr (exn_str e))].

Definition buscar_warning : notice :=
  mk_notice Warning
    [Lit "Verifique se a sua API Key da SerpApi está correta e se você tem créditos."].

(** The world [buscar_links_google] leaves: its request sent, and either the
    success notice or the two notices of the [except] clause shown. *)
Definition searched (req : http_request) (query : string) (num_resultados : Z)
    (found : nat) (failure : option exn) (w : world) : world :=
  let w1 := posted req (notified (buscar_info query num_resultados) w) in
  match failure with
  | None => notified (buscar_success found) w1
  | Some e => notified buscar_warning (notified (buscar_error query e) w1)
  end.

(** A candidate of the shape [{"content": {"parts": [{"text": ...}, ...]}}]. *)
Definition well_formed_candidate (candidate : pyval) : bool :=
  match candidate with
  | PyDict c =>
      match dict_get "content" c with
      | Some (PyDict content) =>
          match dict_get "parts" content with
          | Some (PyList (PyDict part :: _)) => dict_has "text" part
          | _ => false
          end
      | _ => false
      end
  | _ => false
  end.

(** The three classes a failed subscript or membership test raises. *)
Definition is_subscript_error (e : exn) : bool :=
  match e with KeyError _ | IndexError _ | TypeError _ => true | _ => false end.

(** The notifications of [resumir_com_gemini]. *)
Definition resumir_info : notice :=
  mk_notice Info [Lit "Iniciando a geração do resumo detalhado com o Gemini..."].

Definition resumir_no_links : notice :=
  mk_notice Warning [Lit "AVISO: Nenhum link válido fornecido para resumo."].

Definition resumir_unexpected (e : exn) : notice :=
  mk_notice Error [Lit "ERRO INESPERADO ao gerar o resumo: "; Fmt (PyStr (exn_str e))].

(** [str(e)] of the [RetryError] that ends a call whose last attempt raised
    an [HTTPError]. *)
Definition retry_error_str (future_at : string) : string :=
  "RetryError[<Future at " ++ future_at ++ " state=finished raised HTTPError>]".

(** ** Sample replies *)

Definition reply_status (code : Z) (reason : string) : reply :=
  Replied (mk_response code reason
    "https://generativelanguage.googleapis.com/v1beta/models/gemini-2.0-flash:generateContent?key=k"
    (JsonValue (PyDict [("error", PyDict [("code", PyInt code)])]))).

Definition reply_ok (response_json : pyval) : reply :=
  Replied (mk_response 200 "OK"
    "https://generativelanguage.googleapis.com/v1beta/models/gemini-2.0-flash:generateContent?key=k"
    (JsonValue response_json)).

(** A completion with one candidate and its text. *)
Definition json_with_text (text : string) : pyval :=
  PyDict [("candidates",
    PyList [PyDict [("content",
      PyDict [("parts", PyList [PyDict [("text", PyStr text)]]);
              ("role", PyStr "model")])]])].

(** A completion whose candidate has [null] for content. *)
Definition json_null_content : pyval :=
  PyDict [("candidates", PyList [PyDict [("content", PyNone)]])].

(** A completion whose candidate was cut off and has no content. *)
Definition json_no_content : pyval :=
  PyDict [("candidates", PyList [PyDict [("finishReason", PyStr "SAFETY")]])].

Definition sample_links : list string := ["https://a.example/"; "https://b.example/"].

Definition sample_future_at (attempt_number : Z) : string := "0x7f3a2c1d9e80".


(** A search reply whose second organic result is a number. *)
Definition reply_with_bad_entry : reply :=
  Replied (mk_response 200 "OK" "https://serpapi.com/search"
    (JsonValue (PyDict [("organic_results",
       PyList [PyDict [("link", PyStr "https://a.example/")]; PyInt 5])]))).

(** A search reply with three organic results, the second without a link. *)
Definition reply_with_links : reply :=
  Replied (mk_response 200 "OK" "https://serpapi.com/search"
    (JsonValue (PyDict [("organic_results",
       PyList [PyDict [("position", PyInt 1); ("link", PyStr "https://a.example/")];
               PyDict [("position", PyInt 2)];
               PyDict [("link", PyStr "https://b.example/")]])]))).

(** ** The page script (lines 164 to 193 of [app.py])

    What runs once the widgets have been read: the block under
    [st.button], then the footer.  The values of the widgets are its
    arguments.  The page elements it writes are logged beside the
    notifications of the world, each log in its own order. *)

Inductive element : Type :=
| Subheader (text : string)
| Spinner (text : string)
| Write (text : string)
| Markdown (body : list fragment)
| Caption (text : string).

(** How a run of the script ends: at its last line, at [st.stop()], or with
    an exception nothing catches. *)
Inductive script_end : Type :=
| Finished
| Stopped
| Crashed (e : exn).

(** [s.replace(old, new)] for two characters of ASCII *)
Fixpoint str_replace_char (old new : ascii) (s : string) : string :=
  match s with
  | EmptyString => EmptyString
  | String c rest =>
      String (if Ascii.eqb c old then new else c) (str_replace_char old new rest)
  end.

(** [query_pesquisa] *)
Definition build_query (nome_empresa setor palavras_chave : string) : string :=
  let palavras_chave_formatadas := str_replace_char "," " " palavras_chave in
  nome_empresa ++ " " ++ setor ++ " " ++ palavras_chave_formatadas.

(** The first item of a list that is no [str], with its index from [i] on:
    where [str.join] raises. *)
Fixpoint first_non_str (i : Z) (links : list pyval) : option (Z * pyval) :=
  match links with
  | [] => None
  | PyStr _ :: rest => first_non_str (i + 1) rest
  | v :: _ => Some (i, v)
  end.

(** The [str] items of a list. *)
Fixpoint strs_of (links : list pyval) : list string :=
  match links with
  | [] => []
  | PyStr s :: rest => s :: strs_of rest
  | _ :: rest => strs_of rest
  end.

(** The [TypeError] of [sep.join(links)] at an item that is no [str]. *)
Definition join_TypeError (i : Z) (v : pyval) : exn :=
  TypeError ("sequence item " ++ str_of_int i ++ ": expected str instance, "
             ++ type_name v ++ " found").

(** [st.markdown(f"- [{idx + 1}. {link}]({link})")] *)
Definition link_item (idx : Z) (link : pyval) : element :=
  Markdown [Lit "- ["; Fmt (PyInt (idx + 1)); Lit ". "; Fmt link; Lit "]("; Fmt link;
            Lit ")"].

(** [for idx, link in enumerate(links)] from [idx] on *)
Fixpoint link_items (idx : Z) (links : list pyval) : list element :=
  match links with
  | [] => []
  | link :: rest => link_item idx link :: link_items (idx + 1) rest
  end.

Definition name_warning : notice :=
  mk_notice Warning [Lit "Por favor, insira o nome da empresa."].

Definition no_links_found_warning : notice :=
  mk_notice Warning
    [Lit "Nenhum link foi encontrado para a query especificada. Não é possível gerar um resumo."].

Definition footer : list element :=
  [Markdown [Lit "---"]; Caption "Desenvolvido para inteligência de mercado."].

Definition search_step : list element :=
  [Subheader "Etapa 1: Busca no Google";
   Spinner "Buscando links relevantes no Google..."].

Definition summary_step : list element :=
  [Subheader "Etapa 2: Geração do Resumo com Gemini";
   Spinner "Gerando resumo analítico com Gemini. Isso pode levar alguns segundos..."].

Section Script.

Variable google_api_key : string.
Variable serpapi_api_key : string.
Variable net : nat -> http_request -> reply.
Variable future_at : Z -> string.

(** [resumir_com_gemini] on the list [buscar_links_google] hands over, whose
    items are whatever the response held under [link]: the test for the empty
    list comes first, then [join], which raises at an item that is no [str],
    outside the [try]. *)
Definition resumir_com_gemini_on (fuel : nat) (links : list pyval)
    : world -> option ((exn + pyval) * world) :=
  fun w =>
    match links with
    | [] => resumir_com_gemini google_api_key net future_at fuel [] w
    | _ :: _ =>
        match first_non_str 0 links with
        | Some (i, v) => Some (inl (join_TypeError i v), w)
        | None => resumir_com_gemini google_api_key net future_at fuel (strs_of links) w
        end
    end.

Definition script (fuel : nat) (pressed : bool)
    (nome_empresa_input setor_input palavras_chave_input : string)
    (num_resultados_input : Z) (w : world)
    : option (script_end * world * list element) :=
  if pressed then
    if nome_empresa_input =? "" then
      Some (Stopped, notified name_warning w, [])
    else
      let query_pesquisa :=
        build_query nome_empresa_input setor_input palavras_chave_input in
      let (links_encontrados, w1) :=
        buscar_links_google serpapi_api_key net query_pesquisa
          num_resultados_input "pt" w in
      match links_encontrados with
      | inl e => Some (Crashed e, w1, search_step)
      | inr [] =>
          Some (Finished, notified no_links_found_warning w1,
                (search_step ++ footer)%list)
      | inr links =>
          let page :=
            (search_step ++ [Write "Links encontrados para análise:"]
             ++ link_items 0 links ++ summary_step)%list in
          match resumir_com_gemini_on fuel links w1 with
          | None => None
          | Some (inl e, w2) => Some (Crashed e, w2, page)
          | Some (inr resumo_final, w2) =>
              Some (Finished, w2,
                    (page ++ [Subheader "Resumo Analítico para Prospecção";
                              Markdown [Fmt resumo_final]] ++ footer)%list)
          end
      end
  else Some (Finished, w, footer).

End Script.

(** ** More vocabulary *)

(** The text of a candidate of the expected shape. *)
Definition candidate_text (candidate : pyval) : option pyval :=
  match candidate with
  | PyDict c =>
      match dict_get "content" c with
      | Some (PyDict content) =>
          match dict_get "parts" content with
          | Some (PyList (PyDict part :: _)) => dict_get "text" part
          | _ => None
          end
      | _ => None
      end
  | _ => None
  end.

(** An item the loop of [buscar_links_google] gets past: it appends its
    link or skips it, and raises nothing. *)
Definition item_passes (item : pyval) : Prop :=
  exists step, item_link item = inr step.

(** The links of the items that have one, in order. *)
Fixpoint links_in (items : list pyval) : list pyval :=
  match items with
  | [] => []
  | item :: rest =>
      match item_link item with
      | inr (Some link) => link :: links_in rest
      | _ => links_in rest
      end
  end.

(** The waits of [wait_exponential(1, 4, 10)] before attempts 2 to 5. *)
Definition schedule : list Z := [4; 4; 4; 8]%Z.

Definition total (seconds : list Z) : Z := fold_right Z.add 0%Z seconds.

(** A search reply without organic results, and one with a link that is a
    number. *)
Definition reply_without_results : reply :=
  Replied (mk_response 200 "OK" "https://serpapi.com/search"
    (JsonValue (PyDict [("search_metadata", PyDict [("status", PyStr "Success")])]))).

Definition reply_with_number_link : reply :=
  Replied (mk_response 200 "OK" "https://serpapi.com/search"
    (JsonValue (PyDict [("organic_results",
       PyList [PyDict [("link", PyStr "https://a.example/")];
               PyDict [("link", PyInt 7)]])]))).

(** A network that answers the search with two links and the completion
    with a text, and one whose completion fails twice with status 503 first. *)
Definition net_ok (n : nat) (req : http_request) : reply :=
  match req_method req with
  | GET => reply_with_links
  | POST => reply_ok (json_with_text "Resumo")
  end.

Definition net_flaky (n : nat) (req : http_request) : reply :=
  if (n <? 2)%nat then reply_status 503 "Service Unavailable"
  else reply_ok (json_with_text "Resumo").

(** * Properties *)

Local Open Scope string_scope.

(** ** Strings *)

Lemma prefix_nil (s : string) : prefix "" s = true.
Proof. destruct s; reflexivity. Qed.

Lemma prefix_app (n rest : string) : prefix n (n ++ rest) = true.
Proof.
  induction n as [|c n IH]; simpl.
  - apply prefix_nil.
  - destruct (ascii_dec c c) as [_|ne]; [exact IH | congruence].
Qed.

Lemma prefix_app_r (n a b : string) : prefix n a = true -> prefix n (a ++ b) = true.
Proof.
  revert a; induction n as [|c n IH]; intros a H.
  - apply prefix_nil.
  - destruct a as [|d a]; simpl in *; [discriminate|].
    destruct (ascii_dec c d); [auto | discriminate].
Qed.

Lemma str_contains_nil (s : string) : str_contains "" s = true.
Proof. destruct s; reflexivity. Qed.

Lemma str_contains_app_r (n a b : string) :
  str_contains n a = true -> str_contains n (a ++ b) = true.
Proof.
  induction a as [|c a IH]; intro H.
  - destruct n as [|d n]; [apply str_contains_nil | discriminate H].
  - change (String c a ++ b) with (String c (a ++ b)).
    cbn [str_contains] in *.
    destruct (prefix n (String c a)) eqn:E.
    + change (String c (a ++ b)) with (String c a ++ b).
      rewrite (prefix_app_r _ _ _ E). reflexivity.
    + rewrite (IH H). destruct (prefix n (String c (a ++ b))); reflexivity.
Qed.

Lemma str_contains_app_l (n a b : string) :
  str_contains n b = true -> str_contains n (a ++ b) = true.
Proof.
  intro H. induction a as [|c a IH].
  - exact H.
  - change (String c a ++ b) with (String c (a ++ b)).
    cbn [str_contains]. rewrite IH.
    destruct (prefix n (String c (a ++ b))); reflexivity.
Qed.

Lemma str_contains_self (n rest : string) : str_contains n (n ++ rest) = true.
Proof.
  destruct n as [|c n].
  - destruct rest; reflexivity.
  - change (str_contains (String c n) (String c n ++ rest))
      with (if prefix (String c n) (String c n ++ rest) then true
            else str_contains (String c n) (n ++ rest)).
    rewrite prefix_app. reflexivity.
Qed.

Lemma str_contains_refl (n : string) : str_contains n n = true.
Proof.
  destruct n as [|c n]; [reflexivity|].
  cbn [str_contains].
  replace (prefix (String c n) (String c n)) with true; [reflexivity|].
  symmetry. induction (String c n) as [|d m IH]; [reflexivity|].
  simpl. destruct (ascii_dec d d); [exact IH | congruence].
Qed.


(** ** The retry policy *)

Lemma wait_exponential_bounds (attempt_number : Z) :
  (4 <= wait_exponential 1 4 10 attempt_number <= 10)%Z.
Proof. unfold wait_exponential. lia. Qed.

Lemma RetryError_is_not_HTTPError (last : exn + pyval) (at_ : string) :
  is_HTTPError (RetryError last at_) = false.
Proof. reflexivity. Qed.

(** ** Failed subscripts *)

Lemma subscript_error_not_HTTPError (e : exn) :
  is_subscript_error e = true -> is_HTTPError e = false.
Proof. destruct e; simpl; congruence. Qed.

Lemma py_contains_error (key : string) (v : pyval) (e : exn) :
  py_contains key v = inl e -> is_subscript_error e = true.
Proof. destruct v; simpl; intro H; inversion H; reflexivity. Qed.

Lemma py_getitem_error (v : pyval) (key : string) (e : exn) :
  py_getitem v key = inl e -> is_subscript_error e = true.
Proof.
  destruct v; simpl; try (intro H; inversion H; reflexivity).
  destruct (dict_get key items); intro H; inversion H; reflexivity.
Qed.

Lemma py_getitem0_error (v : pyval) (e : exn) :
  py_getitem0 v = inl e -> is_subscript_error e = true.
Proof.
  destruct v as [| | | |s|[|x xs]|]; simpl; try (intro H; inversion H; reflexivity).
  destruct (code_points s); intro H; inversion H; reflexivity.
Qed.

Lemma py_iter_error (v : pyval) (e : exn) :
  py_iter v = inl e -> is_subscript_error e = true.
Proof. destruct v; simpl; intro H; inversion H; reflexivity. Qed.

Create HintDb subscripts.
#[local] Hint Resolve py_contains_error py_getitem_error py_getitem0_error
  py_iter_error : subscripts.

(** ** One attempt *)

Section Attempt.

Variable google_api_key : string.
Variable net : nat -> http_request -> reply.

Lemma first_candidate_text_error (response_json : pyval) (e : exn) :
  first_candidate_text response_json = inl e -> is_subscript_error e = true.
Proof.
  unfold first_candidate_text.
  repeat match goal with
  | |- match ?x with _ => _ end = _ -> _ =>
      let E := fresh "E" in destruct x eqn:E;
      [intro H; inversion H; subst; eauto with subscripts|]
  end.
  eauto with subscripts.
Qed.

Lemma has_candidates_error (response_json : pyval) (e : exn) :
  has_candidates response_json = inl e -> is_subscript_error e = true.
Proof.
  unfold has_candidates.
  destruct (py_contains "candidates" response_json) as [e'|[|]] eqn:C.
  - intro H; inversion H; subst; eauto with subscripts.
  - destruct (py_getitem response_json "candidates") eqn:G;
      intro H; inversion H; subst; eauto with subscripts.
  - discriminate.
Qed.

Lemma raise_for_status_spec (S : Type) (r : response) (s : S) :
  raise_for_status r s =
  match status_error r with
  | Some e => (inl e, s)
  | None => (inr tt, s)
  end.
Proof.
  unfold raise_for_status, status_error.
  destruct ((400 <=? status_code r) && (status_code r <? 500))%Z.
  - destruct (str_of_int (status_code r)); reflexivity.
  - destruct ((500 <=? status_code r) && (status_code r <? 600))%Z.
    + destruct (str_of_int (status_code r)); reflexivity.
    + reflexivity.
Qed.

Lemma status_error_is_HTTPError (r : response) (e : exn) :
  status_error r = Some e -> exists msg, e = HTTPError msg r.
Proof.
  unfold status_error.
  destruct ((400 <=? status_code r) && (status_code r <? 500))%Z.
  - intro H; inversion H; eauto.
  - destruct ((500 <=? status_code r) && (status_code r <? 600))%Z.
    + intro H; inversion H; eauto.
    + discriminate.
Qed.

Lemma status_error_none (r : response) :
  status_error r = None ->
  (status_code r < 400 \/ 600 <= status_code r)%Z.
Proof.
  unfold status_error.
  destruct ((400 <=? status_code r) && (status_code r <? 500))%Z eqn:A;
    [discriminate|].
  destruct ((500 <=? status_code r) && (status_code r <? 600))%Z eqn:B;
    [discriminate|].
  intros _. lia.
Qed.

Lemma http_failure_is_HTTPError (t : reply) (e : exn) :
  http_failure t = Some e -> is_HTTPError e = true.
Proof.
  destruct t as [r|e']; simpl.
  - intro H. destruct (status_error_is_HTTPError _ _ H) as [msg ->]. reflexivity.
  - destruct (is_HTTPError e') eqn:E; [|discriminate].
    intro H; inversion H; subst; exact E.
Qed.

(** An attempt posts its request, then goes by the reply. *)
Lemma attempt_unfold (prompt_text : string) (w : world) :
  generate_content_attempt google_api_key net prompt_text w =
  let req := gemini_request google_api_key prompt_text in
  match net (List.length (sent w)) req with
  | Refused e => (inl e, posted req w)
  | Replied r =>
      match status_error r with
      | Some e => (inl e, posted req w)
      | None => after_status_check r (posted req w)
      end
  end.
Proof.
  unfold generate_content_attempt, requests_post, send, bind. cbv zeta.
  fold (gemini_request google_api_key prompt_text).
  fold (posted (gemini_request google_api_key prompt_text) w).
  destruct (net _ _) as [r|e]; [|reflexivity].
  rewrite raise_for_status_spec. destruct (status_error r); reflexivity.
Qed.

(** What follows the status check touches neither the wire nor the clock,
    and raises no [HTTPError] unless the status is 429. *)
Lemma after_status_check_spec (r : response) (w : world) :
  exists o w',
    after_status_check r w = (o, w') /\
    sent w' = sent w /\ slept w' = slept w /\
    (status_code r <> 429%Z -> retry_if_exception_type is_HTTPError o = false).
Proof.
  unfold after_status_check.
  destruct (status_code r =? 429)%Z eqn:E.
  - do 2 eexists; repeat split; try reflexivity. intro H. apply Z.eqb_eq in E. tauto.
  - unfold json, bind, lift, ret, raise, st.
    destruct (body r) as [v|msg]; [|do 2 eexists; repeat split; reflexivity].
    destruct (has_candidates v) as [e|[|]] eqn:C.
    + do 2 eexists; repeat split; try reflexivity. intros _. simpl.
      apply subscript_error_not_HTTPError, (has_candidates_error _ _ C).
    + destruct (first_candidate_text v) as [e|t] eqn:T;
        do 2 eexists; repeat split; try reflexivity. intros _. simpl.
      apply subscript_error_not_HTTPError, (first_candidate_text_error _ _ T).
    + do 2 eexists; repeat split; reflexivity.
Qed.

End Attempt.

(** ** The retry loop around the attempt *)

Section Completion.

Variable google_api_key : string.
Variable net : nat -> http_request -> reply.
Variable future_at : Z -> string.

Lemma attempt_http_failure (prompt_text : string) (w : world) (e : exn) :
  http_failure (net (List.length (sent w)) (gemini_request google_api_key prompt_text))
    = Some e ->
  generate_content_attempt google_api_key net prompt_text w =
    (inl e, posted (gemini_request google_api_key prompt_text) w).
Proof.
  intro H. rewrite attempt_unfold. cbv zeta.
  destruct (net _ _) as [r|e']; simpl in H.
  - rewrite H. reflexivity.
  - destruct (is_HTTPError e'); inversion H; reflexivity.
Qed.

Lemma attempt_other (prompt_text : string) (w : world) :
  http_failure (net (List.length (sent w)) (gemini_request google_api_key prompt_text))
    = None ->
  exists o w',
    generate_content_attempt google_api_key net prompt_text w = (o, w') /\
    retry_if_exception_type is_HTTPError o = false /\
    sent w' = (sent w ++ [gemini_request google_api_key prompt_text])%list /\
    slept w' = slept w.
Proof.
  intro H. rewrite attempt_unfold. cbv zeta.
  destruct (net _ _) as [r|e']; simpl in H.
  - rewrite H.
    destruct (after_status_check_spec r
                (posted (gemini_request google_api_key prompt_text) w))
      as (o & w' & -> & Hs & Hz & Hr).
    exists o, w'. repeat split; auto.
    apply Hr. destruct (status_error_none _ H); lia.
  - do 2 eexists; repeat split.
    simpl. destruct (is_HTTPError e'); [discriminate | reflexivity].
Qed.

(** A turn of the loop whose attempt ended in an HTTP error: stop at the
    fifth attempt, else sleep and go on. *)
Lemma call_retry (fuel : nat) (n : Z) (prompt_text : string) (w : world) (e : exn) :
  http_failure (net (List.length (sent w)) (gemini_request google_api_key prompt_text))
    = Some e ->
  call future_at (gemini_retrying)
       (generate_content_attempt google_api_key net prompt_text) (S fuel) n w =
  if (5 <=? n)%Z then
    Some (inl (RetryError (inl e) (future_at n)),
          posted (gemini_request google_api_key prompt_text) w)
  else
    call future_at gemini_retrying
         (generate_content_attempt google_api_key net prompt_text) fuel (n + 1)%Z
         (rested (wait_exponential 1 4 10 n)
                 (posted (gemini_request google_api_key prompt_text) w)).
Proof.
  intro H. cbn [call]. rewrite (attempt_http_failure _ _ _ H).
  change (retry gemini_retrying (inl e)) with (is_HTTPError e).
  rewrite (http_failure_is_HTTPError _ _ H).
  change (stop gemini_retrying n) with (5 <=? n)%Z.
  change (reraise gemini_retrying) with false.
  change (wait gemini_retrying n) with (wait_exponential 1 4 10 n).
  destruct (5 <=? n)%Z; reflexivity.
Qed.

(** A turn whose attempt did not end in an [HTTPError] is the last: what the
    attempt returned is returned, what it raised is raised. *)
Lemma call_no_retry (fuel : nat) (n : Z) (prompt_text : string) (w : world) :
  retry_if_exception_type is_HTTPError
    (fst (generate_content_attempt google_api_key net prompt_text w)) = false ->
  call future_at gemini_retrying
       (generate_content_attempt google_api_key net prompt_text) (S fuel) n w =
  Some (generate_content_attempt google_api_key net prompt_text w).
Proof.
  intro H. cbn [call].
  destruct (generate_content_attempt google_api_key net prompt_text w) as [o w1].
  change (retry gemini_retrying o) with (retry_if_exception_type is_HTTPError o).
  cbn [fst] in H. rewrite H. reflexivity.
Qed.

Lemma call_bounded (prompt_text : string) (k : nat) :
  forall (fuel : nat) (n : Z) (w : world),
    (k <= fuel)%nat -> (1 <= k)%nat -> n = (6 - Z.of_nat k)%Z ->
    exists o w' j waits,
      call future_at gemini_retrying
           (generate_content_attempt google_api_key net prompt_text) fuel n w
        = Some (o, w') /\
      (1 <= j <= k)%nat /\
      sent w' = (sent w ++ repeat (gemini_request google_api_key prompt_text) j)%list /\
      slept w' = (slept w ++ waits)%list /\
      List.length waits = (j - 1)%nat /\
      Forall (fun s => 4 <= s <= 10)%Z waits.
Proof.
  induction k as [|k IH]; intros fuel n w Hf Hk Hn; [lia|].
  destruct fuel as [|fuel]; [lia|].
  destruct (http_failure
              (net (List.length (sent w)) (gemini_request google_api_key prompt_text)))
    as [e|] eqn:F.
  - rewrite (call_retry _ _ _ _ _ F).
    destruct (5 <=? n)%Z eqn:St.
    + exists (inl (RetryError (inl e) (future_at n))),
             (posted (gemini_request google_api_key prompt_text) w), 1%nat, [].
      repeat split; simpl; auto; try lia. now rewrite app_nil_r.
    + apply Z.leb_gt in St.
      destruct (IH fuel (n + 1)%Z
                  (rested (wait_exponential 1 4 10 n)
                     (posted (gemini_request google_api_key prompt_text) w)))
        as (o & w' & j & waits & -> & Hj & Hs & Hz & Hl & Hb); try lia.
      exists o, w', (S j), (wait_exponential 1 4 10 n :: waits).
      repeat split; try lia.
      * rewrite Hs. simpl. now rewrite <- app_assoc.
      * rewrite Hz. simpl. now rewrite <- app_assoc.
      * simpl. lia.
      * constructor; [apply wait_exponential_bounds | exact Hb].
  - destruct (attempt_other _ _ F) as (o & w' & Ha & Hr & Hs & Hz).
    rewrite call_no_retry by (rewrite Ha; exact Hr).
    exists o, w', 1%nat, []. rewrite Ha.
    repeat split; simpl; auto; try lia. now rewrite app_nil_r.
Qed.

Lemma status_passes_no_error (r : response) :
  status_passes r -> status_error r = None.
Proof.
  unfold status_passes, status_error. intro H.
  destruct ((400 <=? status_code r) && (status_code r <? 500))%Z eqn:A; [lia|].
  destruct ((500 <=? status_code r) && (status_code r <? 600))%Z eqn:B; [lia|].
  reflexivity.
Qed.

Lemma not_raised_no_retry (o : exn + pyval) :
  ~ raised_HTTPError o -> retry_if_exception_type is_HTTPError o = false.
Proof.
  intro H. destruct o as [e|v]; [|reflexivity].
  destruct e; try reflexivity. exfalso; apply H; do 2 eexists; reflexivity.
Qed.

(** When every reply of the window is an HTTP error the loop runs all its
    attempts, sleeps between them and stops with [RetryError]. *)
Lemma call_all_fail (prompt_text : string) (k : nat) :
  forall (fuel : nat) (n : Z) (w : world),
    (S k <= fuel)%nat -> n = (5 - Z.of_nat k)%Z ->
    (forall i, (i <= k)%nat ->
       http_failure (net (List.length (sent w) + i)
                         (gemini_request google_api_key prompt_text)) <> None) ->
    exists e,
      http_failure (net (List.length (sent w) + k)
                        (gemini_request google_api_key prompt_text)) = Some e /\
      call future_at gemini_retrying
           (generate_content_attempt google_api_key net prompt_text) fuel n w
      = Some (inl (RetryError (inl e) (future_at 5)),
              mk_world
                (sent w ++ repeat (gemini_request google_api_key prompt_text) (S k))
                (slept w ++ backoff n k)
                (shown w)).
Proof.
  induction k as [|k IH]; intros fuel n w Hf Hn Hall;
    (destruct fuel as [|fuel]; [lia|]);
    (destruct (http_failure
                 (net (List.length (sent w))
                      (gemini_request google_api_key prompt_text))) as [e|] eqn:F;
     [| exfalso; apply (Hall 0%nat); [lia | rewrite Nat.add_0_r; exact F]]);
    rewrite (call_retry _ _ _ _ _ F).
  - subst n. rewrite Nat.add_0_r. exists e. split; [exact F|].
    cbn [Z.of_nat Z.sub Z.leb Z.compare Z.opp Z.add backoff repeat].
    unfold posted. now rewrite app_nil_r.
  - assert (St : (5 <=? n)%Z = false) by (apply Z.leb_gt; lia).
    rewrite St.
    destruct (IH fuel (n + 1)%Z
                (rested (wait_exponential 1 4 10 n)
                   (posted (gemini_request google_api_key prompt_text) w)))
      as (e' & Fe & ->); try lia.
    + intros i Hi. cbn [rested posted sent]. rewrite length_app. cbn [List.length].
      replace (List.length (sent w) + 1 + i)%nat
        with (List.length (sent w) + S i)%nat by lia.
      apply Hall; lia.
    + cbn [rested posted sent slept shown] in *.
      rewrite length_app in Fe. cbn [List.length] in Fe.
      replace (List.length (sent w) + 1 + k)%nat
        with (List.length (sent w) + S k)%nat in Fe by lia.
      exists e'. split; [exact Fe|].
      cbn [backoff repeat]. now rewrite <- !app_assoc.
Qed.

(** C1, as the code has it.  When each of the five attempts of one call of
    [generate_content_with_retry_rest] ends in an HTTP error, the call posts
    five requests, sleeps 4, 4, 4 and 8 seconds between them and raises
    tenacity's [RetryError] holding the last attempt: the decorator leaves
    [reraise] at [False], so the last [HTTPError] itself is not what the
    caller gets. *)
Theorem generate_exhausted_raises_RetryError
    (fuel : nat) (prompt_text : string) (w : world) :
  (5 <= fuel)%nat ->
  (forall i, (i < 5)%nat ->
     http_failure (net (List.length (sent w) + i)
                       (gemini_request google_api_key prompt_text)) <> None) ->
  exists last,
    http_failure (net (List.length (sent w) + 4)
                      (gemini_request google_api_key prompt_text)) = Some last /\
    is_HTTPError last = true /\
    generate_content_with_retry_rest google_api_key net future_at fuel prompt_text w
    = Some (inl (RetryError (inl last) (future_at 5)),
            mk_world
              (sent w ++ repeat (gemini_request google_api_key prompt_text) 5)
              (slept w ++ [4; 4; 4; 8]%Z)
              (shown w)) /\
    is_HTTPError (RetryError (inl last) (future_at 5)) = false.
Proof.
  intros Hf Hall.
  destruct (call_all_fail prompt_text 4 fuel 1%Z w) as (e & Fe & Hc);
    [lia | reflexivity | intros; apply Hall; lia |].
  exists e. repeat split; auto.
  eapply http_failure_is_HTTPError; exact Fe.
Qed.

(** C3.  A call of [generate_content_with_retry_rest] ends after at least
    one and at most five attempts, each one request on the wire; between two
    attempts it sleeps once, every time at least 4 and at most 10 seconds;
    and an attempt that did not raise an [HTTPError] is never followed by
    another: its value is returned, its exception raised, at once. *)
Theorem generate_attempts_and_waits_bounded
    (fuel : nat) (prompt_text : string) (w : world) :
  (5 <= fuel)%nat ->
  (exists o w' attempts waits,
     generate_content_with_retry_rest google_api_key net future_at fuel prompt_text w
       = Some (o, w') /\
     (1 <= attempts <= 5)%nat /\
     sent w' =
       (sent w ++ repeat (gemini_request google_api_key prompt_text) attempts)%list /\
     slept w' = (slept w ++ waits)%list /\
     List.length waits = (attempts - 1)%nat /\
     Forall (fun seconds => 4 <= seconds <= 10)%Z waits) /\
  (forall (turns : nat) (attempt_number : Z) (w0 : world),
     ~ raised_HTTPError
         (fst (generate_content_attempt google_api_key net prompt_text w0)) ->
     call future_at gemini_retrying
          (generate_content_attempt google_api_key net prompt_text)
          (S turns) attempt_number w0
     = Some (generate_content_attempt google_api_key net prompt_text w0)).
Proof.
  intro Hf. split.
  - destruct (call_bounded prompt_text 5 fuel 1%Z w)
      as (o & w' & j & waits & H); [lia | lia | reflexivity |].
    exists o, w', j, waits. exact H.
  - intros turns n w0 H. apply call_no_retry, not_raised_no_retry, H.
Qed.

(** C6.  A response with status 429 never makes the attempt return:
    [raise_for_status] raises an [HTTPError] carrying that response, which
    the retry predicate accepts, so the loop stops with it at the fifth
    attempt and otherwise sleeps and tries again; and the explicit check
    that follows raises an [HTTPError] on status 429 wherever it is reached. *)
Theorem status_429_takes_error_path
    (prompt_text : string) (w : world) (r : response) :
  net (List.length (sent w)) (gemini_request google_api_key prompt_text) = Replied r ->
  status_code r = 429%Z ->
  (exists msg,
     generate_content_attempt google_api_key net prompt_text w
       = (inl (HTTPError msg r), posted (gemini_request google_api_key prompt_text) w) /\
     retry gemini_retrying (inl (HTTPError msg r)) = true /\
     forall (turns : nat) (attempt_number : Z),
       call future_at gemini_retrying
            (generate_content_attempt google_api_key net prompt_text)
            (S turns) attempt_number w
       = if (5 <=? attempt_number)%Z then
           Some (inl (RetryError (inl (HTTPError msg r)) (future_at attempt_number)),
                 posted (gemini_request google_api_key prompt_text) w)
         else
           call future_at gemini_retrying
                (generate_content_attempt google_api_key net prompt_text)
                turns (attempt_number + 1)%Z
                (rested (wait_exponential 1 4 10 attempt_number)
                        (posted (gemini_request google_api_key prompt_text) w))) /\
  (forall w0 : world,
     after_status_check r w0
       = (inl (HTTPError "Too Many Requests (429) received." r), w0)).
Proof.
  intros Hnet Hs. split.
  - assert (F : exists msg,
              http_failure (net (List.length (sent w))
                                (gemini_request google_api_key prompt_text))
              = Some (HTTPError msg r)).
    { rewrite Hnet. cbn [http_failure]. unfold status_error. rewrite Hs.
      eexists. reflexivity. }
    destruct F as [msg F]. exists msg. repeat split.
    + apply attempt_http_failure, F.
    + intros turns n. apply call_retry, F.
  - intro w0. unfold after_status_check. rewrite Hs. reflexivity.
Qed.

(** On a response that passes the status check and whose body parses to an
    object without a [candidates] key, or with an empty list under it, the
    attempt shows a warning and returns the fixed text [no_content_message],
    and so does the call, whichever attempt it is; nothing is raised. *)
Lemma no_candidates_returns_sentinel
    (prompt_text : string) (w : world) (r : response) (items : list (string * pyval)) :
  net (List.length (sent w)) (gemini_request google_api_key prompt_text) = Replied r ->
  status_passes r ->
  body r = JsonValue (PyDict items) ->
  dict_get "candidates" items = None \/
  dict_get "candidates" items = Some (PyList []) ->
  let w' :=
    notified (mk_notice Warning
                [Lit "AVISO: Resposta Gemini sem candidatos. Detalhes: ";
                 Fmt (PyDict items)])
             (posted (gemini_request google_api_key prompt_text) w) in
  generate_content_attempt google_api_key net prompt_text w
    = (inr (PyStr no_content_message), w') /\
  (forall (turns : nat) (attempt_number : Z),
     call future_at gemini_retrying
          (generate_content_attempt google_api_key net prompt_text)
          (S turns) attempt_number w
     = Some (inr (PyStr no_content_message), w')) /\
  (forall turns : nat,
     generate_content_with_retry_rest google_api_key net future_at
       (S turns) prompt_text w
     = Some (inr (PyStr no_content_message), w')).
Proof.
  intros Hnet Hs Hb Hc w'.
  assert (A : generate_content_attempt google_api_key net prompt_text w
              = (inr (PyStr no_content_message), w')).
  { rewrite attempt_unfold. cbv zeta. rewrite Hnet, (status_passes_no_error _ Hs).
    unfold after_status_check.
    assert (N : (status_code r =? 429)%Z = false)
      by (apply Z.eqb_neq; destruct Hs; lia).
    rewrite N. unfold json, bind, lift. rewrite Hb.
    assert (H : has_candidates (PyDict items) = inr false).
    { unfold has_candidates, py_contains, py_getitem, dict_has.
      destruct Hc as [-> | ->]; reflexivity. }
    unfold ret at 1. rewrite H. reflexivity. }
  assert (C : forall turns n,
            call future_at gemini_retrying
                 (generate_content_attempt google_api_key net prompt_text)
                 (S turns) n w
            = Some (inr (PyStr no_content_message), w')).
  { intros turns n. rewrite call_no_retry; rewrite A; reflexivity. }
  repeat split; auto. intro turns. apply C.
Qed.

End Completion.

(** ** The search *)

Section Search.

Variable serpapi_api_key : string.
Variable net : nat -> http_request -> reply.

Lemma append_links_spec (items : list pyval) :
  forall (w : world) (resultados : list pyval),
    append_links items (w, resultados) =
    (match snd (collected items) with
     | None => inr tt
     | Some e => inl e
     end,
     (w, (resultados ++ fst (collected items))%list)).
Proof.
  induction items as [|item rest IH]; intros w resultados.
  - simpl. unfold ret. now rewrite app_nil_r.
  - cbn [append_links collected]. unfold bind at 1, item_link, lift.
    destruct (py_contains "link" item) as [e|[|]].
    + simpl. now rewrite app_nil_r.
    + unfold bind at 1. unfold bind at 1.
      destruct (py_getitem item "link") as [e|link].
      * simpl. now rewrite app_nil_r.
      * unfold resultados_append. cbn [fst snd]. rewrite IH.
        cbn [fst snd]. now rewrite <- app_assoc.
    + unfold bind at 1, ret. apply IH.
Qed.

Lemma buscar_try_spec (query : string) (num_resultados : Z) (w : world) :
  let req := serpapi_request serpapi_api_key query num_resultados in
  let out := try_outcome (net (List.length (sent w)) req) in
  buscar_try serpapi_api_key net query num_resultados (w, []) =
  match snd out with
  | Some e => (inl e, (posted req w, fst out))
  | None => (inr tt, (notified (buscar_success (List.length (fst out))) (posted req w),
                      fst out))
  end.
Proof.
  cbv zeta. unfold buscar_try, requests_get, send.
  fold (serpapi_request serpapi_api_key query num_resultados).
  unfold bind at 1, on_world at 1. cbn [fst snd].
  fold (posted (serpapi_request serpapi_api_key query num_resultados) w).
  destruct (net _ _) as [r|e]; [|reflexivity].
  cbn [try_outcome]. unfold bind at 1. rewrite raise_for_status_spec.
  destruct (status_error r) as [e|]; [reflexivity|].
  unfold bind at 1, json. destruct (body r) as [res|msg]; [|reflexivity].
  unfold ret at 1. unfold bind at 1, lift at 1.
  destruct (py_contains "organic_results" res) as [e|[|]]; [reflexivity| |reflexivity].
  unfold bind at 1. unfold bind at 1. unfold lift at 1.
  destruct (py_getitem res "organic_results") as [e|organic]; [reflexivity|].
  unfold bind at 1. unfold lift at 1.
  destruct (py_iter organic) as [e|items]; [reflexivity|].
  rewrite append_links_spec. cbn [app].
  destruct (snd (collected items)); reflexivity.
Qed.

Lemma buscar_spec (query : string) (num_resultados : Z) (lang : string) (w : world) :
  let req := serpapi_request serpapi_api_key query num_resultados in
  let out := try_outcome (net (List.length (sent w)) req) in
  buscar_links_google serpapi_api_key net query num_resultados lang w =
  (inr (fst out),
   searched req query num_resultados (List.length (fst out)) (snd out) w).
Proof.
  cbv zeta. unfold buscar_links_google, searched.
  unfold bind at 1, on_world at 1, st at 1. cbn [fst snd].
  fold (buscar_info query num_resultados).
  fold (notified (buscar_info query num_resultados) w).
  unfold try_except.
  pose proof (buscar_try_spec query num_resultados
                (notified (buscar_info query num_resultados) w)) as H.
  cbv zeta in H. cbn [notified sent] in H. cbn [notified sent].
  fold (notified (buscar_info query num_resultados) w) in *.
  rewrite H.
  destruct (snd (try_outcome _)); reflexivity.
Qed.

Lemma item_link_dict (entry : list (string * pyval)) :
  item_link (PyDict entry) = inr (dict_get "link" entry).
Proof.
  unfold item_link, py_contains, py_getitem, dict_has.
  destruct (dict_get "link" entry); reflexivity.
Qed.

Lemma collected_entries (entries : list (list (string * pyval))) :
  collected (map PyDict entries) = (links_of entries, None).
Proof.
  induction entries as [|entry rest IH]; [reflexivity|].
  cbn [map collected links_of]. rewrite item_link_dict, IH.
  destruct (dict_get "link" entry); reflexivity.
Qed.

Lemma collected_until (entries : list (list (string * pyval)))
    (bad : pyval) (rest : list pyval) (e : exn) :
  item_link bad = inl e ->
  collected (map PyDict entries ++ bad :: rest) = (links_of entries, Some e).
Proof.
  intro H. induction entries as [|entry more IH].
  - cbn [map app collected links_of]. now rewrite H.
  - cbn [map app collected links_of]. rewrite item_link_dict, IH.
    destruct (dict_get "link" entry); reflexivity.
Qed.

(** C4, as the code has it.  Whatever [lang] the caller passes, the one
    request [buscar_links_google] sends carries the literal text [lang]
    under [hl]; the argument is not forwarded. *)
Theorem buscar_sends_literal_hl
    (query : string) (num_resultados : Z) (lang : string) (w : world) :
  let req := serpapi_request serpapi_api_key query num_resultados in
  sent (snd (buscar_links_google serpapi_api_key net query num_resultados lang w))
    = (sent w ++ [req])%list /\
  dict_get "hl" (req_params req) = Some (PyStr "lang") /\
  (lang <> "lang" -> dict_get "hl" (req_params req) <> Some (PyStr lang)).
Proof.
  cbv zeta. rewrite buscar_spec. cbv zeta. cbn [snd]. repeat split.
  - unfold searched. destruct (snd (try_outcome _)); reflexivity.
  - intros H E. apply H. cbn in E. congruence.
Qed.

Lemma item_link_shape (item : pyval) :
  item_link item =
  match item with
  | PyDict entry => inr (dict_get "link" entry)
  | PyList xs =>
      if existsb (fun x => match x with PyStr s => s =? "link" | _ => false end) xs
      then inl (TypeError "list indices must be integers or slices, not str")
      else inr None
  | PyStr s =>
      if str_contains "link" s
      then inl (TypeError "string indices must be integers, not 'str'")
      else inr None
  | _ => inl (TypeError ("argument of type '" ++ type_name item ++ "' is not iterable"))
  end.
Proof.
  destruct item as [| | | |s|xs|entry]; try reflexivity.
  apply item_link_dict.
Qed.

Lemma entries_pass (entries : list (list (string * pyval))) :
  Forall item_passes (map PyDict entries) /\
  links_in (map PyDict entries) = links_of entries.
Proof.
  induction entries as [|entry rest [IHp IHl]]; [split; [constructor | reflexivity]|].
  split.
  - constructor; [eexists; apply item_link_dict | exact IHp].
  - cbn [map links_in links_of]. rewrite item_link_dict, IHl.
    destruct (dict_get "link" entry); reflexivity.
Qed.

Lemma collected_all_pass (items : list pyval) :
  Forall item_passes items -> collected items = (links_in items, None).
Proof.
  induction 1 as [|item rest [step Hs] _ IH]; [reflexivity|].
  cbn [collected links_in]. rewrite Hs, IH. destruct step; reflexivity.
Qed.

Lemma collected_first_bad (good : list pyval) (bad : pyval) (rest : list pyval)
    (e : exn) :
  Forall item_passes good -> item_link bad = inl e ->
  collected (good ++ bad :: rest) = (links_in good, Some e).
Proof.
  intros Hg Hb. induction Hg as [|item more [step Hs] _ IH].
  - cbn [app collected links_in]. now rewrite Hb.
  - cbn [app collected links_in]. rewrite Hs, IH. destruct step; reflexivity.
Qed.

(** C7, amended.  [buscar_links_google] never raises, and what it returns
    is settled by the reply.  It returns the empty list and shows the error
    when the request is refused, the status is an error, the body is no JSON,
    or the extraction fails before the loop (the body cannot be searched for
    [organic_results] or subscripted with it, or what stands under it cannot
    be run over).  It returns the empty list and reports success when the
    body has no [organic_results].  In the loop an item that is an object
    gives its [link] or is skipped, an array or a text without [link] in it is
    skipped, and any other item raises: the links appended before the first
    such item are returned, with the error shown; with no such item the links
    of all items that have one are returned, in the order of the response,
    with the notice of success. *)
Theorem buscar_links_google_absorbs_failures
    (query : string) (num_resultados : Z) (lang : string) (w : world) :
  let req := serpapi_request serpapi_api_key query num_resultados in
  let t := net (List.length (sent w)) req in
  let returns := fun (links : list pyval) (failure : option exn) =>
    buscar_links_google serpapi_api_key net query num_resultados lang w
    = (inr links,
       searched req query num_resultados (List.length links) failure w) in
  (exists links failure, returns links failure) /\
  (forall e, t = Refused e -> returns [] (Some e)) /\
  (forall r e, t = Replied r -> status_error r = Some e -> returns [] (Some e)) /\
  (forall r msg,
     t = Replied r -> status_passes r -> body r = JsonInvalid msg ->
     returns [] (Some (JSONDecodeError msg))) /\
  (forall r res e,
     t = Replied r -> status_passes r -> body r = JsonValue res ->
     py_contains "organic_results" res = inl e ->
     returns [] (Some e)) /\
  (forall r res,
     t = Replied r -> status_passes r -> body r = JsonValue res ->
     py_contains "organic_results" res = inr false ->
     returns [] None) /\
  (forall r res e,
     t = Replied r -> status_passes r -> body r = JsonValue res ->
     py_contains "organic_results" res = inr true ->
     py_getitem res "organic_results" = inl e ->
     returns [] (Some e)) /\
  (forall r res organic_results e,
     t = Replied r -> status_passes r -> body r = JsonValue res ->
     py_contains "organic_results" res = inr true ->
     py_getitem res "organic_results" = inr organic_results ->
     py_iter organic_results = inl e ->
     returns [] (Some e)) /\
  (forall r res organic_results items,
     t = Replied r -> status_passes r -> body r = JsonValue res ->
     py_contains "organic_results" res = inr true ->
     py_getitem res "organic_results" = inr organic_results ->
     py_iter organic_results = inr items ->
     Forall item_passes items ->
     returns (links_in items) None) /\
  (forall r res organic_results good bad rest e,
     t = Replied r -> status_passes r -> body r = JsonValue res ->
     py_contains "organic_results" res = inr true ->
     py_getitem res "organic_results" = inr organic_results ->
     py_iter organic_results = inr (good ++ bad :: rest)%list ->
     Forall item_passes good -> item_link bad = inl e ->
     returns (links_in good) (Some e)) /\
  (forall item,
     item_link item =
     match item with
     | PyDict entry => inr (dict_get "link" entry)
     | PyList xs =>
         if existsb (fun x => match x with PyStr s => s =? "link" | _ => false end) xs
         then inl (TypeError "list indices must be integers or slices, not str")
         else inr None
     | PyStr s =>
         if str_contains "link" s
         then inl (TypeError "string indices must be integers, not 'str'")
         else inr None
     | _ => inl (TypeError ("argument of type '" ++ type_name item
                            ++ "' is not iterable"))
     end) /\
  (forall entries,
     Forall item_passes (map PyDict entries) /\
     links_in (map PyDict entries) = links_of entries) /\
  (forall r res,
     t = Replied r -> status_passes r -> body r = JsonValue (PyDict res) ->
     dict_get "organic_results" res = None ->
     returns [] None) /\
  (forall r res entries,
     t = Replied r -> status_passes r -> body r = JsonValue (PyDict res) ->
     dict_get "organic_results" res = Some (PyList (map PyDict entries)) ->
     returns (links_of entries) None).
Proof.
  cbv zeta.
  assert (R : forall r, net (List.length (sent w))
                  (serpapi_request serpapi_api_key query num_resultados) = Replied r ->
                status_passes r ->
                forall res, body r = JsonValue res ->
                buscar_links_google serpapi_api_key net query num_resultados lang w
                = (let out :=
                     match py_contains "organic_results" res with
                     | inl e => ([], Some e)
                     | inr false => ([], None)
                     | inr true =>
                         match py_getitem res "organic_results" with
                         | inl e => ([], Some e)
                         | inr organic_results =>
                             match py_iter organic_results with
                             | inl e => ([], Some e)
                             | inr items => collected items
                             end
                         end
                     end in
                   (inr (fst out),
                    searched (serpapi_request serpapi_api_key query num_resultados)
                      query num_resultados (List.length (fst out)) (snd out) w))).
  { intros r H P res B. rewrite buscar_spec. cbv zeta. rewrite H.
    cbn [try_outcome]. rewrite (status_passes_no_error _ P), B. reflexivity. }
  split; [rewrite buscar_spec; do 2 eexists; reflexivity|].
  split; [intros e H; rewrite buscar_spec; cbv zeta; rewrite H; reflexivity|].
  split; [intros r e H E; rewrite buscar_spec; cbv zeta; rewrite H;
          cbn [try_outcome]; rewrite E; reflexivity|].
  split; [intros r msg H P B; rewrite buscar_spec; cbv zeta; rewrite H;
          cbn [try_outcome]; rewrite (status_passes_no_error _ P), B; reflexivity|].
  split; [intros r res e H P B C; rewrite (R r H P res B), C; reflexivity|].
  split; [intros r res H P B C; rewrite (R r H P res B), C; reflexivity|].
  split; [intros r res e H P B C G; rewrite (R r H P res B), C, G; reflexivity|].
  split; [intros r res o e H P B C G I; rewrite (R r H P res B), C, G, I;
          reflexivity|].
  split; [intros r res o items H P B C G I F; rewrite (R r H P res B), C, G, I;
          cbv zeta; rewrite (collected_all_pass _ F); reflexivity|].
  split; [intros r res o good bad rest e H P B C G I F E;
          rewrite (R r H P res B), C, G, I; cbv zeta;
          rewrite (collected_first_bad _ _ _ _ F E); reflexivity|].
  split; [apply item_link_shape|].
  split; [apply entries_pass|].
  split.
  - intros r res H P B O. rewrite (R r H P _ B).
    cbn [py_contains]. unfold dict_has. rewrite O. reflexivity.
  - intros r res entries H P B O. rewrite (R r H P _ B).
    cbn [py_contains py_getitem]. unfold dict_has. rewrite O. cbn [py_iter].
    cbv zeta. rewrite collected_entries. reflexivity.
Qed.

End Search.

(** C7 as it was stated fails: on a reply whose second organic result is the
    number 5 the [try] block raises [TypeError] while extracting, after the
    link of the first result has been appended, and the function returns that
    link, not the empty list. *)
Lemma buscar_extraction_failure_keeps_links :
  fst (buscar_try "k" (fun _ _ => reply_with_bad_entry) "q" 5
         (notified (buscar_info "q" 5) fresh, []))
    = inl (TypeError "argument of type 'int' is not iterable") /\
  fst (buscar_links_google "k" (fun _ _ => reply_with_bad_entry) "q" 5 "pt" fresh)
    = inr [PyStr "https://a.example/"] /\
  [PyStr "https://a.example/"] <> [].
Proof. repeat split; [vm_compute; reflexivity .. | discriminate]. Qed.

Lemma buscar_links_google_absorbs_failures_witness :
  buscar_links_google "k" (fun _ _ => reply_with_links) "q" 5 "pt" fresh
  = (inr [PyStr "https://a.example/"; PyStr "https://b.example/"],
     searched (serpapi_request "k" "q" 5) "q" 5 2 None fresh).
Proof.
  destruct (buscar_links_google_absorbs_failures "k" (fun _ _ => reply_with_links)
              "q" 5 "pt" fresh)
    as (_ & _ & _ & _ & _ & _ & _ & _ & _ & _ & _ & _ & _ & H).
  refine (H _ _ [[("position", PyInt 1); ("link", PyStr "https://a.example/")];
                 [("position", PyInt 2)];
                 [("link", PyStr "https://b.example/")]] eq_refl _ eq_refl eq_refl).
  unfold status_passes; simpl; lia.
Defined.

(** ** The summary *)

Section Summary.

Variable google_api_key : string.
Variable net : nat -> http_request -> reply.
Variable future_at : Z -> string.

Lemma resumir_unfold (fuel : nat) (link : string) (links : list string) (w : world) :
  resumir_com_gemini google_api_key net future_at fuel (link :: links) w =
  match generate_content_with_retry_rest google_api_key net future_at fuel
          (build_prompt (str_join (newline ++ "- ") (link :: links)))
          (notified resumir_info w) with
  | None => None
  | Some (inr resumo_final, w2) => Some (inr resumo_final, w2)
  | Some (inl e, w2) => Some (resumir_except e w2)
  end.
Proof. reflexivity. Qed.

(** Both [except] clauses end in a [return] of a text, after one notice. *)
Lemma resumir_except_returns (e : exn) (w : world) :
  exists text shown_error,
    resumir_except e w = (inr (PyStr text), notified shown_error w).
Proof.
  destruct e; try (do 2 eexists; reflexivity).
  unfold resumir_except. destruct (status_code resp =? 429)%Z;
    do 2 eexists; reflexivity.
Qed.

Lemma resumir_except_other (e : exn) (w : world) :
  is_HTTPError e = false ->
  resumir_except e w =
  (inr (PyStr (unknown_error_message (exn_name e) (exn_str e))),
   notified (resumir_unexpected e) w).
Proof. destruct e; [discriminate | reflexivity ..]. Qed.

(** The [except HTTPError] clause by itself does what is asked of it: the
    quota text on 429, a text with the status in it otherwise. *)
Lemma resumir_except_quota (msg : string) (r : response) (w : world) :
  status_code r = 429%Z ->
  fst (resumir_except (HTTPError msg r) w) = inr (PyStr quota_message).
Proof. intro H. unfold resumir_except. rewrite H. reflexivity. Qed.

Lemma resumir_except_status (msg : string) (r : response) (w : world) :
  status_code r <> 429%Z ->
  exists text,
    fst (resumir_except (HTTPError msg r) w) = inr (PyStr text) /\
    str_contains (str_of_int (status_code r)) text = true.
Proof.
  intro H. unfold resumir_except.
  destruct (status_code r =? 429)%Z eqn:E; [apply Z.eqb_eq in E; tauto|].
  eexists; split; [reflexivity|].
  unfold http_error_message.
  do 3 apply str_contains_app_l. apply str_contains_refl.
Qed.

(** No [HTTPError] ever comes out of the decorated function. *)
Lemma generate_raises_no_HTTPError
    (fuel : nat) (prompt_text : string) (w w' : world) (e : exn) :
  generate_content_with_retry_rest google_api_key net future_at fuel prompt_text w
    = Some (inl e, w') ->
  is_HTTPError e = false.
Proof.
  unfold generate_content_with_retry_rest. generalize 1%Z as n.
  revert w. induction fuel as [|fuel IH]; intros w n; [discriminate|].
  destruct (http_failure
              (net (List.length (sent w)) (gemini_request google_api_key prompt_text)))
    as [e0|] eqn:F.
  - rewrite (call_retry _ _ _ _ _ _ _ _ F). destruct (5 <=? n)%Z.
    + intro H; inversion H; reflexivity.
    + apply IH.
  - destruct (attempt_other _ _ _ _ F) as (o & w1 & Ha & Hr & _).
    rewrite call_no_retry by (rewrite Ha; exact Hr). rewrite Ha.
    intro H; inversion H; subst. exact Hr.
Qed.

(** [resumir_com_gemini] returns a text or what the model sent; it raises
    nothing. *)
Lemma resumir_com_gemini_never_raises (fuel : nat) (links : list string) (w : world) :
  (5 <= fuel)%nat ->
  exists v w', resumir_com_gemini google_api_key net future_at fuel links w
               = Some (inr v, w').
Proof.
  intro Hf. destruct links as [|link links]; [do 2 eexists; reflexivity|].
  rewrite resumir_unfold.
  destruct (call_bounded google_api_key net future_at
              (build_prompt (str_join (newline ++ "- ") (link :: links)))
              5 fuel 1%Z (notified resumir_info w))
    as (o & w' & j & waits & Hc & _); [lia | lia | reflexivity |].
  unfold generate_content_with_retry_rest. rewrite Hc.
  destruct o as [e|v]; [|do 2 eexists; reflexivity].
  destruct (resumir_except_returns e w') as (text & n & ->).
  do 2 eexists; reflexivity.
Qed.

(** C8.  On the empty list [resumir_com_gemini] shows its warning and
    returns the fixed text [no_links_message]; it calls nothing else, so no
    request goes out and no wait is slept. *)
Theorem resumir_no_links_short_circuits (fuel : nat) (w : world) :
  resumir_com_gemini google_api_key net future_at fuel [] w
    = Some (inr (PyStr no_links_message), notified resumir_no_links w) /\
  sent (notified resumir_no_links w) = sent w /\
  slept (notified resumir_no_links w) = slept w.
Proof. repeat split. Qed.


(** C2, as the code has it.  When each of the five attempts ends in an HTTP
    error, of status 429 or any other, what reaches the [except] clauses is
    tenacity's [RetryError], which is no [HTTPError]: the summary is the
    text for an unknown error, naming [RetryError] and the Future it holds;
    it is not the quota text, and the status of the failed attempts is not
    what it is made of. *)
Theorem resumir_exhausted_reports_unknown_error
    (fuel : nat) (links : list string) (w : world) :
  links <> [] ->
  (5 <= fuel)%nat ->
  let prompt := build_prompt (str_join (newline ++ "- ") links) in
  (forall i, (i < 5)%nat ->
     http_failure (net (List.length (sent w) + i)
                       (gemini_request google_api_key prompt)) <> None) ->
  exists w',
    resumir_com_gemini google_api_key net future_at fuel links w
      = Some (inr (PyStr (unknown_error_message "RetryError"
                            (retry_error_str (future_at 5)))), w') /\
    unknown_error_message "RetryError" (retry_error_str (future_at 5))
      <> quota_message /\
    (forall e_str status,
       unknown_error_message "RetryError" (retry_error_str (future_at 5))
         <> http_error_message e_str status).
Proof.
  intros Hne Hf prompt Hall.
  destruct links as [|link links]; [congruence|].
  destruct (call_all_fail google_api_key net future_at prompt 4 fuel 1%Z
              (notified resumir_info w))
    as (last & Fe & Hg); [lia | reflexivity | intros; apply Hall; lia |].
  pose proof (http_failure_is_HTTPError _ _ Fe) as Hl.
  eexists. split; [|split].
  - rewrite resumir_unfold. fold prompt.
    unfold generate_content_with_retry_rest. rewrite Hg.
    destruct last; try discriminate Hl. reflexivity.
  - unfold unknown_error_message, quota_message. discriminate.
  - intros e_str status. unfold unknown_error_message, http_error_message.
    discriminate.
Qed.

Lemma malformed_candidate_lookup_fails
    (items : list (string * pyval)) (candidate : pyval) (rest : list pyval) :
  dict_get "candidates" items = Some (PyList (candidate :: rest)) ->
  well_formed_candidate candidate = false ->
  has_candidates (PyDict items) = inr true /\
  exists e, first_candidate_text (PyDict items) = inl e.
Proof.
  intros Hc Hw. split.
  - unfold has_candidates, py_contains, py_getitem, dict_has. rewrite Hc. reflexivity.
  - unfold first_candidate_text. cbn [py_getitem]. rewrite Hc. cbn [py_getitem0].
    destruct candidate as [| | | | |?|c]; try (eexists; reflexivity).
    cbn [py_getitem well_formed_candidate] in *.
    destruct (dict_get "content" c) as [content|]; [|eexists; reflexivity].
    destruct content as [| | | | |?|content]; try (eexists; reflexivity).
    cbn [py_getitem] in *.
    destruct (dict_get "parts" content) as [parts|]; [|eexists; reflexivity].
    destruct parts as [| | | |s|[|part more]|?]; try (eexists; reflexivity).
    + cbn [py_getitem0]. destruct (code_points s); eexists; reflexivity.
    + cbn [py_getitem0].
      destruct part as [| | | | |?|part]; try (eexists; reflexivity).
      cbn [py_getitem]. unfold dict_has in Hw.
      destruct (dict_get "text" part); [discriminate | eexists; reflexivity].
Qed.

(** C10, amended.  On a response that passes the status check and whose
    [candidates] is a list, not empty, whose first item is not of the shape
    [{"content": {"parts": [{"text": ...}]}}], the attempt raises a
    [KeyError], an [IndexError] or a [TypeError], never an [HTTPError]; the
    call ends there, with one request sent, no wait and no fixed text
    returned; and [resumir_com_gemini] turns the exception into the text
    for an unknown error, which names its class. *)
Theorem malformed_candidate_raises_subscript_error
    (turns : nat) (prompt_text : string) (w : world) (r : response)
    (items : list (string * pyval)) (candidate : pyval) (rest : list pyval) :
  net (List.length (sent w)) (gemini_request google_api_key prompt_text) = Replied r ->
  status_passes r ->
  body r = JsonValue (PyDict items) ->
  dict_get "candidates" items = Some (PyList (candidate :: rest)) ->
  well_formed_candidate candidate = false ->
  exists e,
    (exn_name e = "KeyError" \/ exn_name e = "IndexError" \/
     exn_name e = "TypeError") /\
    is_HTTPError e = false /\
    generate_content_attempt google_api_key net prompt_text w
      = (inl e, posted (gemini_request google_api_key prompt_text) w) /\
    generate_content_with_retry_rest google_api_key net future_at
      (S turns) prompt_text w
      = Some (inl e, posted (gemini_request google_api_key prompt_text) w) /\
    (forall links w0,
       links <> [] ->
       prompt_text = build_prompt (str_join (newline ++ "- ") links) ->
       w = notified resumir_info w0 ->
       resumir_com_gemini google_api_key net future_at (S turns) links w0
         = Some (inr (PyStr (unknown_error_message (exn_name e) (exn_str e))),
                 notified (resumir_unexpected e)
                   (posted (gemini_request google_api_key prompt_text) w))).
Proof.
  intros Hnet Hs Hb Hc Hw.
  destruct (malformed_candidate_lookup_fails _ _ _ Hc Hw) as (Hh & e & He).
  pose proof (first_candidate_text_error _ _ He) as Hsub.
  pose proof (subscript_error_not_HTTPError _ Hsub) as Hnh.
  assert (A : generate_content_attempt google_api_key net prompt_text w
              = (inl e, posted (gemini_request google_api_key prompt_text) w)).
  { rewrite attempt_unfold. cbv zeta. rewrite Hnet, (status_passes_no_error _ Hs).
    unfold after_status_check.
    assert (N : (status_code r =? 429)%Z = false)
      by (apply Z.eqb_neq; destruct Hs; lia).
    rewrite N. unfold json, bind, lift. rewrite Hb.
    unfold ret at 1. rewrite Hh, He. reflexivity. }
  assert (G : generate_content_with_retry_rest google_api_key net future_at
                (S turns) prompt_text w
              = Some (inl e, posted (gemini_request google_api_key prompt_text) w)).
  { unfold generate_content_with_retry_rest.
    rewrite call_no_retry; rewrite A; [reflexivity | exact Hnh]. }
  exists e. repeat split; auto.
  - destruct e; try discriminate Hsub; simpl; auto.
  - intros links w0 Hne -> ->.
    destruct links as [|link links]; [congruence|].
    rewrite resumir_unfold, G. now rewrite resumir_except_other.
Qed.

End Summary.

(** ** The theorems at sample inputs *)

(** Five replies of status 500: five requests, four waits, [RetryError]. *)
Lemma generate_exhausted_raises_RetryError_witness :
  exists last,
    http_failure (reply_status 500 "Internal Server Error") = Some last /\
    is_HTTPError last = true /\
    generate_content_with_retry_rest "k"
      (fun _ _ => reply_status 500 "Internal Server Error") sample_future_at 5 "p" fresh
    = Some (inl (RetryError (inl last) "0x7f3a2c1d9e80"),
            mk_world (repeat (gemini_request "k" "p") 5) [4; 4; 4; 8]%Z []) /\
    is_HTTPError (RetryError (inl last) "0x7f3a2c1d9e80") = false.
Proof.
  apply (generate_exhausted_raises_RetryError "k"
           (fun _ _ => reply_status 500 "Internal Server Error") sample_future_at
           5 "p" fresh).
  - lia.
  - intros i _. vm_compute. discriminate.
Defined.

Lemma generate_attempts_and_waits_bounded_witness :
  exists o w' attempts waits,
    generate_content_with_retry_rest "k"
      (fun _ _ => reply_status 503 "Service Unavailable") sample_future_at 5 "p" fresh
      = Some (o, w') /\
    (1 <= attempts <= 5)%nat /\
    sent w' = repeat (gemini_request "k" "p") attempts /\
    slept w' = waits /\
    List.length waits = (attempts - 1)%nat /\
    Forall (fun seconds => 4 <= seconds <= 10)%Z waits.
Proof.
  apply (proj1 (generate_attempts_and_waits_bounded "k"
                  (fun _ _ => reply_status 503 "Service Unavailable") sample_future_at
                  5 "p" fresh (le_n 5))).
Defined.

Lemma status_429_takes_error_path_witness :
  exists msg,
    generate_content_attempt "k" (fun _ _ => reply_status 429 "Too Many Requests")
      "p" fresh
    = (inl (HTTPError msg
              (mk_response 429 "Too Many Requests"
                 "https://generativelanguage.googleapis.com/v1beta/models/gemini-2.0-flash:generateContent?key=k"
                 (JsonValue (PyDict [("error", PyDict [("code", PyInt 429)])])))),
       posted (gemini_request "k" "p") fresh).
Proof.
  destruct (proj1 (status_429_takes_error_path "k"
                     (fun _ _ => reply_status 429 "Too Many Requests") sample_future_at
                     "p" fresh _ eq_refl eq_refl))
    as (msg & H & _).
  exists msg. exact H.
Defined.

Lemma no_candidates_returns_sentinel_witness :
  generate_content_with_retry_rest "k" (fun _ _ => reply_ok (PyDict []))
    sample_future_at 5 "p" fresh
  = Some (inr (PyStr "Não foi possível extrair o conteúdo gerado pelo Gemini."),
          notified (mk_notice Warning
                      [Lit "AVISO: Resposta Gemini sem candidatos. Detalhes: ";
                       Fmt (PyDict [])])
                   (posted (gemini_request "k" "p") fresh)).
Proof.
  refine (proj2 (proj2 (no_candidates_returns_sentinel "k"
                          (fun _ _ => reply_ok (PyDict [])) sample_future_at
                          "p" fresh _ [] eq_refl _ eq_refl (or_introl eq_refl))) 4%nat).
  unfold status_passes; simpl; lia.
Defined.


(** Five replies of status 429: the summary names [RetryError], not the quota. *)
Lemma resumir_exhausted_reports_unknown_error_witness :
  exists w',
    resumir_com_gemini "k" (fun _ _ => reply_status 429 "Too Many Requests")
      sample_future_at 5 sample_links fresh
    = Some (inr (PyStr "Ocorreu um erro desconhecido durante a geração do resumo: RetryError: RetryError[<Future at 0x7f3a2c1d9e80 state=finished raised HTTPError>]"),
            w') /\
    unknown_error_message "RetryError" (retry_error_str "0x7f3a2c1d9e80")
      <> quota_message /\
    (forall e_str status,
       unknown_error_message "RetryError" (retry_error_str "0x7f3a2c1d9e80")
         <> http_error_message e_str status).
Proof.
  apply (resumir_exhausted_reports_unknown_error "k"
           (fun _ _ => reply_status 429 "Too Many Requests") sample_future_at
           5 sample_links fresh).
  - discriminate.
  - lia.
  - intros i _. vm_compute. discriminate.
Defined.

(** A candidate without content: [KeyError], one request, the unknown-error text. *)
Lemma malformed_candidate_raises_subscript_error_witness :
  exists e,
    (exn_name e = "KeyError" \/ exn_name e = "IndexError" \/ exn_name e = "TypeError") /\
    is_HTTPError e = false /\
    generate_content_with_retry_rest "k" (fun _ _ => reply_ok json_no_content)
      sample_future_at 5 "p" fresh
    = Some (inl e, posted (gemini_request "k" "p") fresh).
Proof.
  destruct (malformed_candidate_raises_subscript_error "k"
              (fun _ _ => reply_ok json_no_content) sample_future_at 4 "p" fresh
              _ [("candidates", PyList [PyDict [("finishReason", PyStr "SAFETY")]])]
              (PyDict [("finishReason", PyStr "SAFETY")]) []
              eq_refl (or_introl (eq_refl : (200 ?= 400)%Z = Lt)) eq_refl eq_refl eq_refl)
    as (e & Hname & Hhttp & _ & Hgen & _).
  exists e. repeat split; assumption.
Defined.

(** C10 as it was stated fails: a first candidate whose content is [null]
    makes the attempt raise [TypeError], which is no [LookupError]. *)
Lemma null_content_raises_TypeError :
  well_formed_candidate (PyDict [("content", PyNone)]) = false /\
  fst (generate_content_attempt "k" (fun _ _ => reply_ok json_null_content) "p" fresh)
    = inl (TypeError "'NoneType' object is not subscriptable") /\
  is_LookupError (TypeError "'NoneType' object is not subscriptable") = false.
Proof. repeat split. Qed.

(** A body that parses to [null] has no [candidates] either, but the
    membership test on it raises. *)
Lemma null_body_raises_TypeError :
  fst (generate_content_attempt "k" (fun _ _ => reply_ok PyNone) "p" fresh)
  = inl (TypeError "argument of type 'NoneType' is not iterable").
Proof. reflexivity. Qed.

(** The caller's [lang] against what goes out under [hl]. *)
Lemma buscar_pt_sends_lang :
  option_map req_params
    (hd_error (sent (snd (buscar_links_google "k" (fun _ _ => reply_with_links)
                            "Totvs" 5 "pt" fresh))))
  = Some [("api_key", PyStr "k"); ("q", PyStr "Totvs"); ("num", PyInt 5);
          ("hl", PyStr "lang"); ("gl", PyStr "br")].
Proof. reflexivity. Qed.

(** * Further properties *)

(** ** The completion request: success, schedule and failures *)

Section CompletionPaths.

Variable google_api_key : string.
Variable net : nat -> http_request -> reply.
Variable future_at : Z -> string.

Lemma world_eta (w : world) : mk_world (sent w) (slept w) (shown w) = w.
Proof. destruct w; reflexivity. Qed.

Lemma backoff_schedule (k : nat) : (k <= 4)%nat -> backoff 1 k = firstn k schedule.
Proof.
  intro H. do 5 (destruct k as [|k]; [reflexivity|]). lia.
Qed.

(** [k] attempts in a row that end in an HTTP error, none of them the fifth,
    leave the loop where it was, [k] requests and [k] waits later. *)
Lemma call_fail_prefix (prompt_text : string) (k : nat) :
  forall (fuel : nat) (n : Z) (w : world),
    (n + Z.of_nat k <= 5)%Z ->
    (forall i, (i < k)%nat ->
       http_failure (net (List.length (sent w) + i)
                         (gemini_request google_api_key prompt_text)) <> None) ->
    call future_at gemini_retrying
         (generate_content_attempt google_api_key net prompt_text) (k + fuel) n w
    = call future_at gemini_retrying
           (generate_content_attempt google_api_key net prompt_text) fuel
           (n + Z.of_nat k)%Z
           (mk_world
              (sent w ++ repeat (gemini_request google_api_key prompt_text) k)
              (slept w ++ backoff n k)
              (shown w)).
Proof.
  induction k as [|k IH]; intros fuel n w Hn Hall.
  - cbn [Nat.add repeat backoff Z.of_nat].
    now rewrite Z.add_0_r, !app_nil_r, world_eta.
  - destruct (http_failure
                (net (List.length (sent w))
                     (gemini_request google_api_key prompt_text))) as [e|] eqn:F;
      [| exfalso; apply (Hall 0%nat); [lia | rewrite Nat.add_0_r; exact F]].
    cbn [Nat.add]. rewrite (call_retry _ _ _ _ _ _ _ _ F).
    assert (St : (5 <=? n)%Z = false) by (apply Z.leb_gt; lia).
    rewrite St, IH.
    + cbn [rested posted sent slept shown backoff repeat].
      replace (n + 1 + Z.of_nat k)%Z with (n + Z.of_nat (S k))%Z by lia.
      now rewrite <- !app_assoc.
    + lia.
    + intros i Hi. cbn [rested posted sent]. rewrite length_app. cbn [List.length].
      replace (List.length (sent w) + 1 + i)%nat
        with (List.length (sent w) + S i)%nat by lia.
      apply Hall; lia.
Qed.

(** On a response of the expected shape what follows the status check
    returns the text of the first part of the first candidate and shows
    nothing. *)
Lemma after_status_check_text
    (r : response) (items : list (string * pyval)) (candidate : pyval)
    (rest : list pyval) (text : pyval) (w : world) :
  status_passes r ->
  body r = JsonValue (PyDict items) ->
  dict_get "candidates" items = Some (PyList (candidate :: rest)) ->
  candidate_text candidate = Some text ->
  after_status_check r w = (inr text, w).
Proof.
  intros Hs Hb Hc Ht. unfold after_status_check.
  assert (N : (status_code r =? 429)%Z = false)
    by (apply Z.eqb_neq; destruct Hs; lia).
  rewrite N. unfold json, bind, lift. rewrite Hb. unfold ret at 1.
  assert (H : has_candidates (PyDict items) = inr true).
  { unfold has_candidates, py_contains, py_getitem, dict_has. now rewrite Hc. }
  rewrite H.
  assert (T : first_candidate_text (PyDict items) = inr text).
  { unfold first_candidate_text. cbn [py_getitem]. rewrite Hc. cbn [py_getitem0].
    destruct candidate as [| | | | |?|c]; try discriminate Ht.
    cbn [candidate_text py_getitem] in *.
    destruct (dict_get "content" c) as [[| | | | |?|content]|]; try discriminate Ht.
    cbn [py_getitem].
    destruct (dict_get "parts" content) as [[| | | | |[|[| | | | |?|part] more]|?]|];
      try discriminate Ht.
    cbn [py_getitem0 py_getitem]. now rewrite Ht. }
  now rewrite T.
Qed.

(** X1.  When the first [k] attempts, at most four, end in an HTTP error and
    the next reply passes the status check with a candidate of the expected
    shape, the call returns the text of that candidate's first part, having
    sent [k + 1] requests and slept the first [k] waits of the schedule. *)
Theorem generate_retries_then_returns
    (fuel k : nat) (prompt_text : string) (w : world) (r : response)
    (items : list (string * pyval)) (candidate : pyval) (rest : list pyval)
    (text : pyval) :
  (5 <= fuel)%nat ->
  (k <= 4)%nat ->
  (forall i, (i < k)%nat ->
     http_failure (net (List.length (sent w) + i)
                       (gemini_request google_api_key prompt_text)) <> None) ->
  net (List.length (sent w) + k) (gemini_request google_api_key prompt_text)
    = Replied r ->
  status_passes r ->
  body r = JsonValue (PyDict items) ->
  dict_get "candidates" items = Some (PyList (candidate :: rest)) ->
  candidate_text candidate = Some text ->
  generate_content_with_retry_rest google_api_key net future_at fuel prompt_text w
  = Some (inr text,
          mk_world
            (sent w ++ repeat (gemini_request google_api_key prompt_text) (S k))
            (slept w ++ firstn k schedule)
            (shown w)).
Proof.
  intros Hf Hk Hall Hnet Hs Hb Hc Ht.
  unfold generate_content_with_retry_rest.
  replace fuel with (k + S (fuel - S k))%nat by lia.
  rewrite call_fail_prefix by (auto; lia).
  set (wk := mk_world _ _ _).
  assert (A : generate_content_attempt google_api_key net prompt_text wk
              = (inr text, posted (gemini_request google_api_key prompt_text) wk)).
  { rewrite attempt_unfold. cbv zeta. subst wk. cbn [sent].
    rewrite length_app, repeat_length, Hnet, (status_passes_no_error _ Hs).
    eapply after_status_check_text; eauto. }
  rewrite call_no_retry by (rewrite A; reflexivity).
  rewrite A. subst wk. unfold posted. cbn [sent slept shown].
  rewrite <- app_assoc, <- repeat_cons, (backoff_schedule k Hk). reflexivity.
Qed.

Lemma call_schedule (prompt_text : string) (k : nat) :
  forall (fuel : nat) (n : Z) (w : world),
    (k <= fuel)%nat -> (1 <= k)%nat -> n = (6 - Z.of_nat k)%Z ->
    exists o w' j,
      call future_at gemini_retrying
           (generate_content_attempt google_api_key net prompt_text) fuel n w
        = Some (o, w') /\
      (1 <= j <= k)%nat /\
      sent w' = (sent w ++ repeat (gemini_request google_api_key prompt_text) j)%list /\
      slept w' = (slept w ++ backoff n (j - 1))%list.
Proof.
  induction k as [|k IH]; intros fuel n w Hf Hk Hn; [lia|].
  destruct fuel as [|fuel]; [lia|].
  destruct (http_failure
              (net (List.length (sent w)) (gemini_request google_api_key prompt_text)))
    as [e|] eqn:F.
  - rewrite (call_retry _ _ _ _ _ _ _ _ F).
    destruct (5 <=? n)%Z eqn:St.
    + exists (inl (RetryError (inl e) (future_at n))),
             (posted (gemini_request google_api_key prompt_text) w), 1%nat.
      repeat split; simpl; auto; try lia. now rewrite app_nil_r.
    + apply Z.leb_gt in St.
      destruct (IH fuel (n + 1)%Z
                  (rested (wait_exponential 1 4 10 n)
                     (posted (gemini_request google_api_key prompt_text) w)))
        as (o & w' & j & -> & Hj & Hs & Hz); try lia.
      exists o, w', (S j). repeat split; try lia.
      * rewrite Hs. simpl. now rewrite <- app_assoc.
      * rewrite Hz. simpl. rewrite <- app_assoc.
        destruct j as [|j]; [lia|]. cbn [Nat.sub backoff].
        rewrite Nat.sub_0_r. reflexivity.
  - destruct (attempt_other _ _ _ _ F) as (o & w' & Ha & Hr & Hs & Hz).
    rewrite call_no_retry by (rewrite Ha; exact Hr).
    exists o, w', 1%nat. rewrite Ha.
    repeat split; simpl; auto; try lia. now rewrite app_nil_r.
Qed.

(** X2.  A call makes between one and five attempts; before attempts 2, 3, 4
    and 5 it sleeps 4, 4, 4 and 8 seconds, so the waits of a call are the
    first [attempts - 1] of those and add up to 20 seconds at most. *)
Theorem generate_backoff_schedule
    (fuel : nat) (prompt_text : string) (w : world) :
  (5 <= fuel)%nat ->
  exists o w' attempts,
    generate_content_with_retry_rest google_api_key net future_at fuel prompt_text w
      = Some (o, w') /\
    (1 <= attempts <= 5)%nat /\
    sent w' =
      (sent w ++ repeat (gemini_request google_api_key prompt_text) attempts)%list /\
    slept w' = (slept w ++ firstn (attempts - 1) schedule)%list /\
    (total (firstn (attempts - 1) schedule) <= 20)%Z.
Proof.
  intro Hf.
  destruct (call_schedule prompt_text 5 fuel 1%Z w)
    as (o & w' & j & Hc & Hj & Hs & Hz); [lia | lia | reflexivity |].
  exists o, w', j. repeat split; auto; try lia.
  - rewrite Hz, backoff_schedule by lia. reflexivity.
  - destruct Hj as [H1 H5].
    do 6 (destruct j as [|j]; [try lia; vm_compute; try discriminate; try lia|]).
    lia.
Qed.

(** X4.  Whatever stands under [candidates] and counts as false, an empty
    list, an empty object, [null], [false], zero or the empty text, makes the
    attempt show its warning and return the fixed text. *)
Theorem falsy_candidates_return_sentinel
    (prompt_text : string) (w : world) (r : response)
    (items : list (string * pyval)) (candidates : pyval) (turns : nat) :
  net (List.length (sent w)) (gemini_request google_api_key prompt_text) = Replied r ->
  status_passes r ->
  body r = JsonValue (PyDict items) ->
  dict_get "candidates" items = Some candidates ->
  py_truthy candidates = false ->
  generate_content_with_retry_rest google_api_key net future_at
    (S turns) prompt_text w
  = Some (inr (PyStr no_content_message),
          notified (mk_notice Warning
                      [Lit "AVISO: Resposta Gemini sem candidatos. Detalhes: ";
                       Fmt (PyDict items)])
                   (posted (gemini_request google_api_key prompt_text) w)).
Proof.
  intros Hnet Hs Hb Hc Hf.
  assert (A : generate_content_attempt google_api_key net prompt_text w
              = (inr (PyStr no_content_message),
                 notified (mk_notice Warning
                      [Lit "AVISO: Resposta Gemini sem candidatos. Detalhes: ";
                       Fmt (PyDict items)])
                   (posted (gemini_request google_api_key prompt_text) w))).
  { rewrite attempt_unfold. cbv zeta. rewrite Hnet, (status_passes_no_error _ Hs).
    unfold after_status_check.
    assert (N : (status_code r =? 429)%Z = false)
      by (apply Z.eqb_neq; destruct Hs; lia).
    rewrite N. unfold json, bind, lift. rewrite Hb.
    assert (H : has_candidates (PyDict items) = inr false).
    { unfold has_candidates, py_contains, py_getitem, dict_has. now rewrite Hc, Hf. }
    unfold ret at 1. rewrite H. reflexivity. }
  unfold generate_content_with_retry_rest.
  rewrite call_no_retry; rewrite A; reflexivity.
Qed.

End CompletionPaths.

(** ** The summary: what it posts and what it reports *)

Lemma str_join_contains (sep l : string) (links : list string) :
  In l links -> str_contains l (str_join sep links) = true.
Proof.
  induction links as [|p rest IH]; intro H; [contradiction|].
  destruct H as [-> | H].
  - destruct rest as [|q rest]; [apply str_contains_refl | apply str_contains_self].
  - destruct rest as [|q rest]; [contradiction|].
    change (str_join sep (p :: q :: rest))
      with (p ++ sep ++ str_join sep (q :: rest)).
    do 2 apply str_contains_app_l. apply IH, H.
Qed.

(** X9.  Every link handed to [resumir_com_gemini] stands in the prompt it
    builds. *)
Theorem prompt_contains_every_link (links : list string) :
  Forall (fun link =>
            str_contains link (build_prompt (str_join (newline ++ "- ") links)) = true)
         links.
Proof.
  apply Forall_forall. intros l H. unfold build_prompt.
  apply str_contains_app_l, str_contains_app_r, str_join_contains, H.
Qed.

Section SummaryPaths.

Variable google_api_key : string.
Variable net : nat -> http_request -> reply.
Variable future_at : Z -> string.

(** X3.  When the first request is refused with an exception that is no
    [HTTPError] (no connection, a timeout), or its reply passes the status
    check with a body that is no JSON, that exception ends the call after one
    request and no wait, and [resumir_com_gemini] returns the text for an
    unknown error with the class and the message of the exception. *)
Theorem transport_failure_becomes_unknown_error
    (turns : nat) (links : list string) (w : world) (e : exn) :
  links <> [] ->
  let prompt := build_prompt (str_join (newline ++ "- ") links) in
  let req := gemini_request google_api_key prompt in
  let t := net (List.length (sent w)) req in
  (t = Refused e /\ is_HTTPError e = false) \/
  (exists r msg, t = Replied r /\ status_passes r /\
                 body r = JsonInvalid msg /\ e = JSONDecodeError msg) ->
  generate_content_with_retry_rest google_api_key net future_at (S turns) prompt
    (notified resumir_info w)
    = Some (inl e, posted req (notified resumir_info w)) /\
  resumir_com_gemini google_api_key net future_at (S turns) links w
    = Some (inr (PyStr (unknown_error_message (exn_name e) (exn_str e))),
            notified (resumir_unexpected e) (posted req (notified resumir_info w))).
Proof.
  intros Hne prompt req t H.
  assert (A : generate_content_attempt google_api_key net prompt
                (notified resumir_info w)
              = (inl e, posted req (notified resumir_info w)) /\
              is_HTTPError e = false).
  { rewrite attempt_unfold. cbv zeta. cbn [notified sent]. fold req. fold t.
    destruct H as [[-> He] | (r & msg & -> & Hs & Hb & ->)].
    - split; [reflexivity | exact He].
    - rewrite (status_passes_no_error _ Hs). unfold after_status_check.
      assert (N : (status_code r =? 429)%Z = false)
        by (apply Z.eqb_neq; destruct Hs; lia).
      rewrite N. unfold json, bind. rewrite Hb. split; reflexivity. }
  destruct A as [A He].
  assert (G : generate_content_with_retry_rest google_api_key net future_at
                (S turns) prompt (notified resumir_info w)
              = Some (inl e, posted req (notified resumir_info w))).
  { unfold generate_content_with_retry_rest.
    rewrite call_no_retry; rewrite A; [reflexivity | exact He]. }
  split; [exact G|].
  destruct links as [|link links]; [congruence|].
  rewrite resumir_unfold. fold prompt. rewrite G.
  now rewrite resumir_except_other.
Qed.

(** X5.  For links that are not empty [resumir_com_gemini] ends, raises
    nothing, and has one of two results: the value the completion call
    returned, or, for whatever exception [e] that call raised, the text for
    an unknown error made of the class and message of [e].  The texts of the
    [except HTTPError] clause are never produced by it. *)
Theorem resumir_outcome_classification
    (fuel : nat) (links : list string) (w : world) :
  links <> [] ->
  (5 <= fuel)%nat ->
  let prompt := build_prompt (str_join (newline ++ "- ") links) in
  exists o w2,
    generate_content_with_retry_rest google_api_key net future_at fuel prompt
      (notified resumir_info w) = Some (o, w2) /\
    resumir_com_gemini google_api_key net future_at fuel links w
    = Some (match o with
            | inr resumo_final => (inr resumo_final, w2)
            | inl e =>
                (inr (PyStr (unknown_error_message (exn_name e) (exn_str e))),
                 notified (resumir_unexpected e) w2)
            end).
Proof.
  intros Hne Hf prompt.
  destruct links as [|link links]; [congruence|].
  destruct (call_bounded google_api_key net future_at prompt 5 fuel 1%Z
              (notified resumir_info w))
    as (o & w2 & j & waits & Hc & _); [lia | lia | reflexivity |].
  exists o, w2. split; [exact Hc|].
  rewrite resumir_unfold. fold prompt.
  unfold generate_content_with_retry_rest in *. rewrite Hc.
  destruct o as [e|v]; [|reflexivity].
  rewrite resumir_except_other; [reflexivity|].
  eapply generate_raises_no_HTTPError. exact Hc.
Qed.

End SummaryPaths.

(** ** The search: what it returns *)

Section SearchPaths.

Variable serpapi_api_key : string.
Variable net : nat -> http_request -> reply.

Lemma collected_from_items (items : list pyval) (link : pyval) :
  In link (fst (collected items)) ->
  exists item, In item items /\ py_getitem item "link" = inr link.
Proof.
  induction items as [|item rest IH]; [contradiction|].
  cbn [collected]. unfold item_link.
  destruct (py_contains "link" item) as [e|[|]]; cbn [fst].
  - contradiction.
  - destruct (py_getitem item "link") as [e|v] eqn:G; cbn [fst].
    + contradiction.
    + intros [<- | H].
      * exists item. split; [left; reflexivity | exact G].
      * destruct (IH H) as (it & Hin & Hg). exists it. split; [right|]; assumption.
  - intro H. destruct (IH H) as (it & Hin & Hg). exists it. split; [right|]; assumption.
Qed.

Lemma collected_length (items : list pyval) :
  (List.length (fst (collected items)) <= List.length items)%nat.
Proof.
  induction items as [|item rest IH]; [reflexivity|].
  cbn [collected]. destruct (item_link item) as [e|[v|]]; cbn [fst List.length]; lia.
Qed.

(** X7.  [buscar_links_google] returns nothing of its own making: each
    link it returns stands under [link] in an item of the [organic_results]
    of the reply it got. *)
Theorem buscar_returns_only_response_links
    (query : string) (num_resultados : Z) (lang : string) (w : world) :
  exists links w',
    buscar_links_google serpapi_api_key net query num_resultados lang w
      = (inr links, w') /\
    Forall (fun link =>
      exists r res organic_results items item,
        net (List.length (sent w))
            (serpapi_request serpapi_api_key query num_resultados) = Replied r /\
        body r = JsonValue res /\
        py_getitem res "organic_results" = inr organic_results /\
        py_iter organic_results = inr items /\
        In item items /\
        py_getitem item "link" = inr link) links.
Proof.
  rewrite buscar_spec. cbv zeta. do 2 eexists. split; [reflexivity|].
  apply Forall_forall. intros link.
  destruct (net _ _) as [r|e]; cbn [try_outcome fst]; [|contradiction].
  destruct (status_error r); cbn [fst]; [contradiction|].
  destruct (body r) as [res|msg] eqn:B; cbn [fst]; [|contradiction].
  destruct (py_contains "organic_results" res) as [e|[|]]; cbn [fst];
    try contradiction.
  destruct (py_getitem res "organic_results") as [e|organic] eqn:G; cbn [fst];
    [contradiction|].
  destruct (py_iter organic) as [e|items] eqn:I; cbn [fst]; [contradiction|].
  intro H. destruct (collected_from_items _ _ H) as (item & Hin & Hg).
  exists r, res, organic, items, item. repeat split; auto.
Qed.

(** X6.  A reply that passes the status check and parses to an object
    without [organic_results] is no failure: the empty list comes back with
    the notice of success, counting 0 links, and no error is shown. *)
Theorem buscar_without_organic_results
    (query : string) (num_resultados : Z) (lang : string) (w : world)
    (r : response) (res : list (string * pyval)) :
  net (List.length (sent w)) (serpapi_request serpapi_api_key query num_resultados)
    = Replied r ->
  status_passes r ->
  body r = JsonValue (PyDict res) ->
  dict_get "organic_results" res = None ->
  buscar_links_google serpapi_api_key net query num_resultados lang w
  = (inr [],
     searched (serpapi_request serpapi_api_key query num_resultados)
              query num_resultados 0 None w).
Proof.
  intros Hnet Hs Hb Ho. rewrite buscar_spec. cbv zeta.
  rewrite Hnet. cbn [try_outcome]. rewrite (status_passes_no_error _ Hs), Hb.
  cbn [py_contains]. unfold dict_has. rewrite Ho. reflexivity.
Qed.

End SearchPaths.

(** ** The query *)

Lemma str_replace_char_length (old new : ascii) (s : string) :
  String.length (str_replace_char old new s) = String.length s.
Proof. induction s as [|c s IH]; [reflexivity|]. simpl. now rewrite IH. Qed.

Lemma str_replace_comma_free (s : string) :
  str_contains "," (str_replace_char "," " " s) = false.
Proof.
  induction s as [|c s IH]; [reflexivity|].
  cbn [str_replace_char str_contains]. rewrite IH.
  destruct (Ascii.eqb c ",") eqn:E.
  - reflexivity.
  - cbn [prefix]. destruct (ascii_dec "," c) as [<-|_]; [|reflexivity].
    rewrite Ascii.eqb_refl in E. discriminate.
Qed.

Lemma str_replace_char_fixed (old new : ascii) (s : string) :
  old <> new ->
  str_replace_char old new (str_replace_char old new s) = str_replace_char old new s.
Proof.
  intro H. induction s as [|c s IH]; [reflexivity|].
  cbn [str_replace_char]. rewrite IH. f_equal.
  destruct (Ascii.eqb c old) eqn:E; [|now rewrite E].
  destruct (Ascii.eqb new old) eqn:N; [|reflexivity].
  apply Ascii.eqb_eq in N. congruence.
Qed.

(** X8.  The query is the name, the sector and the keywords with one space
    between them; in the keywords every comma has become a space, so they keep
    their length, hold no comma, and a second replacement would change
    nothing.  Commas in the name and in the sector stay. *)
Theorem build_query_keywords (nome_empresa setor palavras_chave : string) :
  let keywords := str_replace_char "," " " palavras_chave in
  build_query nome_empresa setor palavras_chave
    = nome_empresa ++ " " ++ setor ++ " " ++ keywords /\
  String.length keywords = String.length palavras_chave /\
  str_contains "," keywords = false /\
  str_replace_char "," " " keywords = keywords /\
  (str_contains "," nome_empresa = true \/ str_contains "," setor = true ->
   str_contains "," (build_query nome_empresa setor palavras_chave) = true).
Proof.
  cbv zeta. split; [reflexivity|]. split; [apply str_replace_char_length|].
  split; [apply str_replace_comma_free|].
  split; [apply str_replace_char_fixed; discriminate|].
  unfold build_query. intros [H|H].
  - apply str_contains_app_r, H.
  - do 2 apply str_contains_app_l. apply str_contains_app_r, H.
Qed.

(** ** The page script *)

Section ScriptPaths.

Variable google_api_key : string.
Variable serpapi_api_key : string.
Variable net : nat -> http_request -> reply.
Variable future_at : Z -> string.

Lemma first_non_str_strs (i : Z) (ls : list string) :
  first_non_str i (map PyStr ls) = None.
Proof. revert i. induction ls as [|l ls IH]; intro i; [reflexivity | apply IH]. Qed.

Lemma strs_of_strs (ls : list string) : strs_of (map PyStr ls) = ls.
Proof. induction ls as [|l ls IH]; [reflexivity|]. simpl. now rewrite IH. Qed.

Lemma all_strs (links : list pyval) :
  forall i, first_non_str i links = None -> links = map PyStr (strs_of links).
Proof.
  induction links as [|v links IH]; intros i H; [reflexivity|].
  destruct v; try discriminate H. simpl. f_equal. eapply IH, H.
Qed.

(** The requests and waits of [resumir_com_gemini] on links that are not
    empty. *)
Lemma resumir_requests (fuel : nat) (links : list string) (w : world) :
  links <> [] ->
  (5 <= fuel)%nat ->
  exists v w' posts,
    resumir_com_gemini google_api_key net future_at fuel links w = Some (inr v, w') /\
    (1 <= posts <= 5)%nat /\
    sent w' =
      (sent w ++ repeat (gemini_request google_api_key
                           (build_prompt (str_join (newline ++ "- ") links)))
                        posts)%list /\
    slept w' = (slept w ++ firstn (posts - 1) schedule)%list.
Proof.
  intros Hne Hf. destruct links as [|link links]; [congruence|].
  rewrite resumir_unfold.
  destruct (call_schedule google_api_key net future_at
              (build_prompt (str_join (newline ++ "- ") (link :: links)))
              5 fuel 1%Z (notified resumir_info w))
    as (o & w' & j & Hc & Hj & Hs & Hz); [lia | lia | reflexivity |].
  unfold generate_content_with_retry_rest. rewrite Hc.
  rewrite backoff_schedule in Hz by lia.
  destruct o as [e|v].
  - destruct (resumir_except_returns e w') as (text & n & ->).
    exists (PyStr text), (notified n w'), j. repeat split; auto; lia.
  - exists v, w', j. repeat split; auto; lia.
Qed.

(** X10.  When the search hands back no link, for an empty result as for a
    failed search, the script shows its warning and the footer and ends: the
    search request is the only one sent, and nothing is posted to the model. *)
Theorem script_without_links_posts_nothing
    (fuel : nat) (nome_empresa setor palavras_chave : string) (num_resultados : Z)
    (w : world) :
  nome_empresa <> "" ->
  let query := build_query nome_empresa setor palavras_chave in
  fst (buscar_links_google serpapi_api_key net query num_resultados "pt" w) = inr [] ->
  exists w1,
    script google_api_key serpapi_api_key net future_at fuel true
           nome_empresa setor palavras_chave num_resultados w
      = Some (Finished, notified no_links_found_warning w1,
              (search_step ++ footer)%list) /\
    sent (notified no_links_found_warning w1)
      = (sent w ++ [serpapi_request serpapi_api_key query num_resultados])%list /\
    slept (notified no_links_found_warning w1) = slept w.
Proof.
  intros Hn query Hb.
  assert (Hsent : sent (snd (buscar_links_google serpapi_api_key net query
                               num_resultados "pt" w))
                  = (sent w ++ [serpapi_request serpapi_api_key query
                                  num_resultados])%list).
  { rewrite buscar_spec. cbv zeta. cbn [snd]. unfold searched.
    destruct (snd (try_outcome _)); reflexivity. }
  assert (Hz : slept (snd (buscar_links_google serpapi_api_key net query
                             num_resultados "pt" w)) = slept w).
  { rewrite buscar_spec. cbv zeta. cbn [snd]. unfold searched.
    destruct (snd (try_outcome _)); reflexivity. }
  unfold script. apply String.eqb_neq in Hn. rewrite Hn. fold query.
  destruct (buscar_links_google serpapi_api_key net query num_resultados "pt" w)
    as [found w1].
  cbn [fst snd] in *. subst found. exists w1. repeat split; assumption.
Qed.


Lemma buscar_world (query : string) (num_resultados : Z) (lang : string) (w : world) :
  exists links w1,
    buscar_links_google serpapi_api_key net query num_resultados lang w
      = (inr links, w1) /\
    sent w1 = (sent w ++ [serpapi_request serpapi_api_key query num_resultados])%list /\
    slept w1 = slept w.
Proof.
  rewrite buscar_spec. cbv zeta. do 2 eexists. split; [reflexivity|].
  unfold searched. destruct (snd (try_outcome _)); split; reflexivity.
Qed.


(** X12.  When the search hands back links, all of them texts, the script
    ends at its last line: it lists the links in order, numbered from 1,
    passes exactly those to [resumir_com_gemini], which posts a prompt
    holding each of them, and shows what that returns, unchanged, above the
    footer. *)
Theorem script_summarises_found_links
    (fuel : nat) (nome_empresa setor palavras_chave : string) (num_resultados : Z)
    (w w1 : world) (ls : list string) :
  nome_empresa <> "" ->
  (5 <= fuel)%nat ->
  ls <> [] ->
  buscar_links_google serpapi_api_key net
    (build_query nome_empresa setor palavras_chave) num_resultados "pt" w
    = (inr (map PyStr ls), w1) ->
  exists resumo_final w2 posts,
    resumir_com_gemini google_api_key net future_at fuel ls w1
      = Some (inr resumo_final, w2) /\
    script google_api_key serpapi_api_key net future_at fuel true
           nome_empresa setor palavras_chave num_resultados w
      = Some (Finished, w2,
              (search_step ++ [Write "Links encontrados para análise:"]
               ++ link_items 0 (map PyStr ls) ++ summary_step
               ++ [Subheader "Resumo Analítico para Prospecção";
                   Markdown [Fmt resumo_final]] ++ footer)%list) /\
    (1 <= posts <= 5)%nat /\
    sent w2 =
      (sent w1 ++ repeat (gemini_request google_api_key
                            (build_prompt (str_join (newline ++ "- ") ls))) posts)%list /\
    Forall (fun link =>
              str_contains link (build_prompt (str_join (newline ++ "- ") ls)) = true)
           ls.
Proof.
  intros Hn Hf Hne Hb.
  destruct (resumir_requests fuel ls w1 Hne Hf)
    as (resumo & w2 & posts & Hr & Hp & Hs & _).
  exists resumo, w2, posts. split; [exact Hr|]. split; [|split; [exact Hp|split]].
  - unfold script. apply String.eqb_neq in Hn. rewrite Hn, Hb.
    destruct ls as [|l ls]; [congruence|].
    cbn [map]. unfold resumir_com_gemini_on.
    change (PyStr l :: map PyStr ls) with (map PyStr (l :: ls)).
    rewrite first_non_str_strs, strs_of_strs.
    cbn [map]. rewrite Hr. now rewrite <- !app_assoc.
  - exact Hs.
  - apply Forall_forall. intros l H. unfold build_prompt.
    apply str_contains_app_l, str_contains_app_r, str_join_contains, H.
Qed.

(** X13.  When one of the links the search hands back is no text, [join]
    raises [TypeError] outside every [try]: the script ends there with that
    exception, after listing the links, with nothing posted to the model and
    no footer. *)
Theorem script_crashes_on_non_str_link
    (fuel : nat) (nome_empresa setor palavras_chave : string) (num_resultados : Z)
    (w w1 : world) (links : list pyval) (i : Z) (v : pyval) :
  nome_empresa <> "" ->
  buscar_links_google serpapi_api_key net
    (build_query nome_empresa setor palavras_chave) num_resultados "pt" w
    = (inr links, w1) ->
  first_non_str 0 links = Some (i, v) ->
  script google_api_key serpapi_api_key net future_at fuel true
         nome_empresa setor palavras_chave num_resultados w
    = Some (Crashed (join_TypeError i v), w1,
            (search_step ++ [Write "Links encontrados para análise:"]
             ++ link_items 0 links ++ summary_step)%list) /\
  sent w1 =
    (sent w ++ [serpapi_request serpapi_api_key
                  (build_query nome_empresa setor palavras_chave) num_resultados])%list /\
  (forall s, v <> PyStr s) /\
  (0 <= i < Z.of_nat (List.length links))%Z.
Proof.
  intros Hn Hb Fn. split; [|split; [|split]].
  - unfold script. apply String.eqb_neq in Hn. rewrite Hn, Hb.
    destruct links as [|x links]; [discriminate Fn|].
    unfold resumir_com_gemini_on. rewrite Fn. reflexivity.
  - destruct (buscar_world (build_query nome_empresa setor palavras_chave)
                num_resultados "pt" w) as (l' & w' & E & Hs & _).
    rewrite Hb in E. inversion E; subst. exact Hs.
  - assert (G : forall ls j, first_non_str j ls = Some (i, v) ->
                  (forall s, v <> PyStr s) /\
                  (j <= i < j + Z.of_nat (List.length ls))%Z).
    { induction ls as [|x ls IH]; intros j H; [discriminate|].
      destruct x; cbn [first_non_str] in H;
        try (inversion H; subst; split; [discriminate | cbn [List.length]; lia]).
      destruct (IH _ H) as [A B]. split; [exact A | cbn [List.length]; lia]. }
    apply (G _ _ Fn).
  - assert (G : forall ls j, first_non_str j ls = Some (i, v) ->
                  (j <= i < j + Z.of_nat (List.length ls))%Z).
    { induction ls as [|x ls IH]; intros j H; [discriminate|].
      destruct x; cbn [first_non_str] in H;
        try (inversion H; subst; cbn [List.length]; lia).
      specialize (IH _ H). cbn [List.length]. lia. }
    specialize (G _ _ Fn). lia.
Qed.

End ScriptPaths.

(** ** The further properties at sample inputs *)

(** Two replies of status 503, then a completion: three requests, waits of
    4 and 4 seconds, the text. *)
Lemma generate_retries_then_returns_witness :
  generate_content_with_retry_rest "k" net_flaky sample_future_at 5 "p" fresh
  = Some (inr (PyStr "Resumo"),
          mk_world (repeat (gemini_request "k" "p") 3) [4; 4]%Z []).
Proof.
  refine (generate_retries_then_returns "k" net_flaky sample_future_at 5 2 "p" fresh
            _ _ _ [] (PyStr "Resumo") (le_n 5) _ _ eq_refl _ eq_refl eq_refl eq_refl).
  - lia.
  - intros i Hi. destruct i as [|[|i]]; [vm_compute; discriminate .. | lia].
  - unfold status_passes; simpl; lia.
Defined.

Lemma generate_backoff_schedule_witness :
  exists o w' attempts,
    generate_content_with_retry_rest "k" net_flaky sample_future_at 5 "p" fresh
      = Some (o, w') /\
    (1 <= attempts <= 5)%nat /\
    sent w' = repeat (gemini_request "k" "p") attempts /\
    slept w' = firstn (attempts - 1) schedule /\
    (total (firstn (attempts - 1) schedule) <= 20)%Z.
Proof.
  apply (generate_backoff_schedule "k" net_flaky sample_future_at 5 "p" fresh (le_n 5)).
Defined.

(** A refused connection: one request, no wait, the text for an unknown
    error. *)
Lemma transport_failure_becomes_unknown_error_witness :
  resumir_com_gemini "k"
    (fun _ _ => Refused (OtherError "ConnectionError" "Connection aborted."))
    sample_future_at 5 sample_links fresh
  = Some (inr (PyStr "Ocorreu um erro desconhecido durante a geração do resumo: ConnectionError: Connection aborted."),
          notified (resumir_unexpected
                      (OtherError "ConnectionError" "Connection aborted."))
            (posted (gemini_request "k"
                       (build_prompt (str_join (newline ++ "- ") sample_links)))
                    (notified resumir_info fresh))).
Proof.
  refine (proj2 (transport_failure_becomes_unknown_error "k"
                   (fun _ _ => Refused (OtherError "ConnectionError"
                                          "Connection aborted."))
                   sample_future_at 4 sample_links fresh
                   (OtherError "ConnectionError" "Connection aborted.") _
                   (or_introl (conj eq_refl eq_refl)))).
  discriminate.
Defined.

Lemma falsy_candidates_return_sentinel_witness :
  generate_content_with_retry_rest "k"
    (fun _ _ => reply_ok (PyDict [("candidates", PyNone)])) sample_future_at 5 "p" fresh
  = Some (inr (PyStr no_content_message),
          notified (mk_notice Warning
                      [Lit "AVISO: Resposta Gemini sem candidatos. Detalhes: ";
                       Fmt (PyDict [("candidates", PyNone)])])
                   (posted (gemini_request "k" "p") fresh)).
Proof.
  refine (falsy_candidates_return_sentinel "k"
            (fun _ _ => reply_ok (PyDict [("candidates", PyNone)])) sample_future_at
            "p" fresh _ _ PyNone 4 eq_refl _ eq_refl eq_refl eq_refl).
  unfold status_passes; simpl; lia.
Defined.

Lemma resumir_outcome_classification_witness :
  exists o w2,
    generate_content_with_retry_rest "k"
      (fun _ _ => reply_status 500 "Internal Server Error") sample_future_at 5
      (build_prompt (str_join (newline ++ "- ") sample_links))
      (notified resumir_info fresh) = Some (o, w2) /\
    resumir_com_gemini "k" (fun _ _ => reply_status 500 "Internal Server Error")
      sample_future_at 5 sample_links fresh
    = Some (match o with
            | inr resumo_final => (inr resumo_final, w2)
            | inl e =>
                (inr (PyStr (unknown_error_message (exn_name e) (exn_str e))),
                 notified (resumir_unexpected e) w2)
            end).
Proof.
  apply (resumir_outcome_classification "k"
           (fun _ _ => reply_status 500 "Internal Server Error") sample_future_at
           5 sample_links fresh).
  - discriminate.
  - lia.
Defined.

Lemma buscar_without_organic_results_witness :
  buscar_links_google "s" (fun _ _ => reply_without_results) "q" 5 "pt" fresh
  = (inr [], searched (serpapi_request "s" "q" 5) "q" 5 0 None fresh).
Proof.
  refine (buscar_without_organic_results "s" (fun _ _ => reply_without_results)
            "q" 5 "pt" fresh _ _ eq_refl _ eq_refl eq_refl).
  unfold status_passes; simpl; lia.
Defined.

Lemma script_without_links_posts_nothing_witness :
  exists w1,
    script "g" "s" (fun _ _ => reply_without_results) sample_future_at 5 true
           "Totvs" "ERP" "a,b" 5 fresh
      = Some (Finished, notified no_links_found_warning w1,
              (search_step ++ footer)%list) /\
    sent (notified no_links_found_warning w1)
      = [serpapi_request "s" (build_query "Totvs" "ERP" "a,b") 5] /\
    slept (notified no_links_found_warning w1) = [].
Proof.
  apply (script_without_links_posts_nothing "g" "s" (fun _ _ => reply_without_results)
           sample_future_at 5 "Totvs" "ERP" "a,b" 5 fresh).
  - discriminate.
  - reflexivity.
Defined.


Lemma script_summarises_found_links_witness :
  exists resumo_final w2 posts,
    resumir_com_gemini "g" net_ok sample_future_at 5 sample_links
      (snd (buscar_links_google "s" net_ok (build_query "Totvs" "ERP" "a,b") 5 "pt"
              fresh))
      = Some (inr resumo_final, w2) /\
    script "g" "s" net_ok sample_future_at 5 true "Totvs" "ERP" "a,b" 5 fresh
      = Some (Finished, w2,
              (search_step ++ [Write "Links encontrados para análise:"]
               ++ link_items 0 (map PyStr sample_links) ++ summary_step
               ++ [Subheader "Resumo Analítico para Prospecção";
                   Markdown [Fmt resumo_final]] ++ footer)%list) /\
    (1 <= posts <= 5)%nat /\
    sent w2 =
      (sent (snd (buscar_links_google "s" net_ok (build_query "Totvs" "ERP" "a,b") 5
                    "pt" fresh))
       ++ repeat (gemini_request "g"
                    (build_prompt (str_join (newline ++ "- ") sample_links)))
                 posts)%list /\
    Forall (fun link =>
              str_contains link
                (build_prompt (str_join (newline ++ "- ") sample_links)) = true)
           sample_links.
Proof.
  apply (script_summarises_found_links "g" "s" net_ok sample_future_at 5
           "Totvs" "ERP" "a,b" 5 fresh).
  - discriminate.
  - lia.
  - discriminate.
  - reflexivity.
Defined.

Lemma script_crashes_on_non_str_link_witness :
  script "g" "s" (fun _ _ => reply_with_number_link) sample_future_at 5 true
         "Totvs" "ERP" "a,b" 5 fresh
  = Some (Crashed (TypeError "sequence item 1: expected str instance, int found"),
          snd (buscar_links_google "s" (fun _ _ => reply_with_number_link)
                 (build_query "Totvs" "ERP" "a,b") 5 "pt" fresh),
          (search_step ++ [Write "Links encontrados para análise:"]
           ++ link_items 0 [PyStr "https://a.example/"; PyInt 7]
           ++ summary_step)%list).
Proof.
  refine (proj1 (script_crashes_on_non_str_link "g" "s"
                   (fun _ _ => reply_with_number_link) sample_future_at 5
                   "Totvs" "ERP" "a,b" 5 fresh _ _ 1%Z (PyInt 7) _ eq_refl eq_refl)).
  discriminate.
Defined.

(** ** A response without candidates, whatever its body parses to *)

Section MissingCandidates.

Variable google_api_key : string.
Variable net : nat -> http_request -> reply.
Variable future_at : Z -> string.

(** The attempt on a reply that passes the status check and parses. *)
Lemma attempt_on_body
    (prompt_text : string) (w : world) (r : response) (response_json : pyval) :
  net (List.length (sent w)) (gemini_request google_api_key prompt_text) = Replied r ->
  status_passes r ->
  body r = JsonValue response_json ->
  generate_content_attempt google_api_key net prompt_text w =
  match has_candidates response_json with
  | inl e => (inl e, posted (gemini_request google_api_key prompt_text) w)
  | inr true =>
      (first_candidate_text response_json,
       posted (gemini_request google_api_key prompt_text) w)
  | inr false =>
      (inr (PyStr no_content_message),
       notified (mk_notice Warning
                   [Lit "AVISO: Resposta Gemini sem candidatos. Detalhes: ";
                    Fmt response_json])
                (posted (gemini_request google_api_key prompt_text) w))
  end.
Proof.
  intros Hnet Hs Hb.
  rewrite attempt_unfold. cbv zeta. rewrite Hnet, (status_passes_no_error _ Hs).
  unfold after_status_check.
  assert (N : (status_code r =? 429)%Z = false)
    by (apply Z.eqb_neq; destruct Hs; lia).
  rewrite N. unfold json, bind, lift. rewrite Hb. unfold ret at 1.
  destruct (has_candidates response_json) as [e|[|]]; reflexivity.
Qed.

(** C5, amended.  Take a response that passes the status check and whose
    body parses.  When the body is an object whose [candidates] is absent or
    an empty list the attempt shows its warning and returns the fixed text
    [no_content_message], and so does the call, whichever attempt it is; the
    same holds for an array or a text in which [candidates] does not occur.
    When the body is [null], a boolean or a number, or an array or a text in
    which [candidates] occurs, it has no such field either, but the attempt
    raises a [TypeError], and the call raises it at once.  A generated text
    is returned as it is, and without the warning. *)
Theorem missing_candidates_sentinel_or_TypeError
    (prompt_text : string) (w : world) (r : response) (response_json : pyval) :
  net (List.length (sent w)) (gemini_request google_api_key prompt_text) = Replied r ->
  status_passes r ->
  body r = JsonValue response_json ->
  let w1 := posted (gemini_request google_api_key prompt_text) w in
  let warned :=
    notified (mk_notice Warning
                [Lit "AVISO: Resposta Gemini sem candidatos. Detalhes: ";
                 Fmt response_json]) w1 in
  let ends := fun (o : exn + pyval) (w' : world) =>
    generate_content_attempt google_api_key net prompt_text w = (o, w') /\
    forall (turns : nat) (attempt_number : Z),
      call future_at gemini_retrying
           (generate_content_attempt google_api_key net prompt_text)
           (S turns) attempt_number w
      = Some (o, w') in
  (forall items,
     response_json = PyDict items ->
     dict_get "candidates" items = None \/
     dict_get "candidates" items = Some (PyList []) ->
     ends (inr (PyStr no_content_message)) warned) /\
  ((exists xs, response_json = PyList xs) \/ (exists s, response_json = PyStr s) ->
   py_contains "candidates" response_json = inr false ->
   ends (inr (PyStr no_content_message)) warned) /\
  (response_json = PyNone \/ (exists b, response_json = PyBool b) \/
   (exists z, response_json = PyInt z) \/ (exists f, response_json = PyFloat f) ->
   exists msg, ends (inl (TypeError msg)) w1) /\
  ((exists xs, response_json = PyList xs) \/ (exists s, response_json = PyStr s) ->
   py_contains "candidates" response_json = inr true ->
   exists msg, ends (inl (TypeError msg)) w1) /\
  (forall items candidate rest text,
     response_json = PyDict items ->
     dict_get "candidates" items = Some (PyList (candidate :: rest)) ->
     candidate_text candidate = Some text ->
     ends (inr text) w1).
Proof.
  intros Hnet Hs Hb. cbv zeta.
  pose proof (attempt_on_body prompt_text w r response_json Hnet Hs Hb) as A.
  assert (E : forall o w',
            generate_content_attempt google_api_key net prompt_text w = (o, w') ->
            retry_if_exception_type is_HTTPError o = false ->
            generate_content_attempt google_api_key net prompt_text w = (o, w') /\
            forall turns n,
              call future_at gemini_retrying
                   (generate_content_attempt google_api_key net prompt_text)
                   (S turns) n w = Some (o, w')).
  { intros o w' Ha Hr. split; [exact Ha|]. intros turns n.
    rewrite call_no_retry; rewrite Ha; [reflexivity | exact Hr]. }
  split; [|split; [|split; [|split]]].
  - intros items -> Hc. apply E; [|reflexivity]. rewrite A.
    unfold has_candidates, py_contains, py_getitem, dict_has.
    destruct Hc as [-> | ->]; reflexivity.
  - intros _ Hc. apply E; [|reflexivity]. rewrite A.
    unfold has_candidates. rewrite Hc. reflexivity.
  - intros H.
    assert (exists msg, has_candidates response_json = inl (TypeError msg)) as [msg Hh].
    { destruct H as [-> | [[b ->] | [[z ->] | [f ->]]]]; eexists; reflexivity. }
    exists msg. apply E; [|reflexivity]. rewrite A, Hh. reflexivity.
  - intros H Hc.
    assert (exists msg, has_candidates response_json = inl (TypeError msg)) as [msg Hh].
    { unfold has_candidates. rewrite Hc.
      destruct H as [[xs ->] | [s ->]]; eexists; reflexivity. }
    exists msg. apply E; [|reflexivity]. rewrite A, Hh. reflexivity.
  - intros items candidate rest text -> Hc Ht. apply E; [|reflexivity].
    rewrite attempt_unfold. cbv zeta. rewrite Hnet, (status_passes_no_error _ Hs).
    eapply after_status_check_text; eauto.
Qed.

End MissingCandidates.

Lemma missing_candidates_sentinel_or_TypeError_witness :
  generate_content_attempt "k" (fun _ _ => reply_ok (PyDict [])) "p" fresh
  = (inr (PyStr "Não foi possível extrair o conteúdo gerado pelo Gemini."),
     notified (mk_notice Warning
                 [Lit "AVISO: Resposta Gemini sem candidatos. Detalhes: ";
                  Fmt (PyDict [])])
              (posted (gemini_request "k" "p") fresh)).
Proof.
  refine (proj1 (proj1 (missing_candidates_sentinel_or_TypeError "k"
                          (fun _ _ => reply_ok (PyDict [])) sample_future_at
                          "p" fresh _ (PyDict []) eq_refl _ eq_refl)
                   [] eq_refl (or_introl eq_refl))).
  unfold status_passes; simpl; lia.
Defined.

(** C5 as it was stated fails: a body that parses to [null] has no
    [candidates], and the attempt raises [TypeError] on it; and a completion
    whose text is the wording of the fixed text returns that very value. *)
Lemma missing_candidates_may_raise :
  fst (generate_content_attempt "k" (fun _ _ => reply_ok PyNone) "p" fresh)
    = inl (TypeError "argument of type 'NoneType' is not iterable") /\
  fst (generate_content_attempt "k"
         (fun _ _ => reply_ok (json_with_text no_content_message)) "p" fresh)
    = inr (PyStr no_content_message).
Proof. split; reflexivity. Qed.
